(** * fmriprep.utils.transforms: loading transforms for resampling

    A shallow embedding of [src/fmriprep/utils/transforms.py]
    ([load_transforms], [load_ants_h5], [FIXED_PARAMS],
    [parse_combined_hdf5]) and the properties its specification states.

    - float64 values are the kernel's binary64 floats ([PrimFloat]);
    - a numpy array is its shape and its indexing function;
    - Python exceptions are the [Raise] case of [result];
    - the heap of Python list objects and the table of open HDF5 handles
      are threaded explicitly through a state-and-exception monad [M];
    - h5py, nitransforms, pathlib and the file system are collaborators of
      the module: what the source only calls is a field of [Externals]. *)

From Stdlib Require Import ZArith List String Ascii Bool Lia Floats.
From stdpp Require Import gmap.
Import ListNotations.

Set Warnings "-register-all,-clear-no-such-hyp".
Local Open Scope string_scope.
Local Open Scope Z_scope.

(** ** Python values, exceptions *)

Inductive exn : Type :=
| ValueError (msg : string)
| KeyError (key : string)
| IndexError
| OSError (path : string)
| TypeError (msg : string)
| LibraryError (msg : string).

Inductive result (A : Type) : Type :=
| Ok (a : A)
| Raise (e : exn).
Arguments Ok {A} a.
Arguments Raise {A} e.

(** The line feed of the source's ['\n']. *)
Definition nl : string := String (ascii_of_nat 10) EmptyString.

(** ** numpy *)

Module np.

(** An array: its shape and the element at each multi-index. *)
Record ndarray : Type := mk_ndarray {
  shape : list Z;
  item : list Z -> float
}.

(** [np.array([...])] of a flat literal. *)
Definition array (l : list float) : ndarray :=
  {| shape := [Z.of_nat (List.length l)];
     item := fun idx =>
       match idx with
       | [i] => nth (Z.to_nat i) l 0%float
       | _ => 0%float
       end |}.

Definition size (a : ndarray) : Z := fold_right Z.mul 1 (shape a).

Definition range (n : Z) : list Z := map Z.of_nat (seq 0 (Z.to_nat n)).

(** Every multi-index of a shape, in C (row-major) order. *)
Fixpoint ndindex (shp : list Z) : list (list Z) :=
  match shp with
  | [] => [[]]
  | d :: rest => flat_map (fun i => map (cons i) (ndindex rest)) (range d)
  end.

Fixpoint in_bounds (shp idx : list Z) : bool :=
  match shp, idx with
  | [], [] => true
  | d :: shp', i :: idx' => (0 <=? i) && (i <? d) && in_bounds shp' idx'
  | _, _ => false
  end.

(** [a[i0, i1, ...]] for non-negative indices; [None] is IndexError. *)
Definition getitem (a : ndarray) (idx : list Z) : option float :=
  if in_bounds (shape a) idx then Some (item a idx) else None.

Fixpoint list_eqb (l1 l2 : list Z) : bool :=
  match l1, l2 with
  | [], [] => true
  | x :: l1', y :: l2' => (x =? y) && list_eqb l1' l2'
  | _, _ => false
  end.

(** [np.array_equal(a1, a2)]: same shape and every pair of elements
    equal under IEEE [==]. *)
Definition array_equal (a1 a2 : ndarray) : bool :=
  list_eqb (shape a1) (shape a2)
  && forallb (fun idx => PrimFloat.eqb (item a1 idx) (item a2 idx))
             (ndindex (shape a1)).

(** Row-major flat position of a multi-index. *)
Fixpoint ravel_from (acc : Z) (shp idx : list Z) : Z :=
  match shp, idx with
  | d :: shp', i :: idx' => ravel_from (acc * d + i) shp' idx'
  | _, _ => acc
  end.
Definition ravel (shp idx : list Z) : Z := ravel_from 0 shp idx.

(** The multi-index of a flat position. *)
Fixpoint unravel (shp : list Z) (p : Z) : list Z :=
  match shp with
  | [] => []
  | d :: rest =>
      let inner := fold_right Z.mul 1 rest in
      ((p / inner) mod d) :: unravel rest (p mod inner)
  end.

(** [a.reshape(newshape)]: ValueError unless the sizes agree. *)
Definition reshape (a : ndarray) (newshape : list Z) : result ndarray :=
  if fold_right Z.mul 1 newshape =? size a then
    Ok {| shape := newshape;
          item := fun idx => item a (unravel (shape a) (ravel newshape idx)) |}
  else Raise (ValueError "cannot reshape array").

Fixpoint index_of (k : nat) (l : list nat) : nat :=
  match l with
  | [] => 0
  | x :: r => if Nat.eqb x k then 0 else S (index_of k r)
  end.

Definition is_permutation (axes : list nat) : bool :=
  forallb (fun k => existsb (Nat.eqb k) axes) (seq 0 (List.length axes)).

(** [a.transpose(axes)]: axis [k] of the result is axis [axes[k]] of [a]. *)
Definition transpose (a : ndarray) (axes : list nat) : result ndarray :=
  if Nat.eqb (List.length axes) (List.length (shape a)) && is_permutation axes then
    Ok {| shape := map (fun k => nth k (shape a) 0) axes;
          item := fun idx =>
            item a (map (fun j => nth (index_of j axes) idx 0)
                        (seq 0 (List.length axes))) |}
  else Raise (ValueError "axes do not match array").

Definition lastn {A} (n : nat) (l : list A) : list A :=
  skipn (List.length l - n) l.

Fixpoint broadcastable (sa sb : list Z) : bool :=
  match sa, sb with
  | _, [] => true
  | da :: sa', db :: sb' => ((db =? da) || (db =? 1)) && broadcastable sa' sb'
  | [], _ :: _ => false
  end.

Fixpoint broadcast_index (sb idx : list Z) : list Z :=
  match sb, idx with
  | d :: sb', i :: idx' => (if d =? 1 then 0 else i) :: broadcast_index sb' idx'
  | _, _ => []
  end.

(** [a *= b]: [b] is broadcast against the trailing axes of [a]. *)
Definition imul (a b : ndarray) : result ndarray :=
  let nb := List.length (shape b) in
  if Nat.leb nb (List.length (shape a))
     && broadcastable (lastn nb (shape a)) (shape b) then
    Ok {| shape := shape a;
          item := fun idx =>
            PrimFloat.mul (item a idx)
                          (item b (broadcast_index (shape b) (lastn nb idx))) |}
  else Raise (ValueError "operands could not be broadcast together").

End np.

(** A 4x4 homogeneous matrix, as the nested literal the source writes. *)
Definition Matrix : Type := list (list float).

(** A physical-space coordinate (RAS, millimetres). *)
Definition point : Type := (float * float * float)%type.

(** The matrix of a translation by [(tx, ty, tz)]. *)
Definition translation (tx ty tz : float) : Matrix :=
  [ [1; 0; 0; tx]; [0; 1; 0; ty]; [0; 0; 1; tz]; [0; 0; 0; 1] ]%float.

(** The matrix of a uniform scaling by [s]. *)
Definition scaling (s : float) : Matrix :=
  [ [s; 0; 0; 0]; [0; s; 0; 0]; [0; 0; s; 0]; [0; 0; 0; 1] ]%float.

(** ** h5py *)

Module h5py.

(** One numbered member of [TransformGroup]. [TransformType] is the record
    the source reads with [[:][0]]. *)
Record Entry : Type := mk_Entry {
  TransformType : string;
  TransformFixedParameters : np.ndarray;
  TransformParameters : np.ndarray
}.

(** A group: its members in the order [keys()] yields them. *)
Definition Group : Type := list (string * Entry).

(** An open [h5py.File]: the handle it holds and its [TransformGroup]. *)
Record File : Type := mk_File {
  fid : nat;
  TransformGroup : Group
}.

Fixpoint lookup (g : Group) (key : string) : option Entry :=
  match g with
  | [] => None
  | (k, e) :: rest => if String.eqb k key then Some e else lookup rest key
  end.

Definition keys (g : Group) : list string := map fst g.

End h5py.

(** ** The interpreter state and the monad of the module's functions *)

(** [lists]: the Python [list] objects of booleans, by identity.
    [open_files]: the HDF5 handles opened and not closed since, with the
    next handle to hand out. The functions below record the opens they
    perform; the release of a file whose [File] object dies when a call
    ends is recorded at the call ([call_parse_combined_hdf5]). *)
Record World : Type := mk_World {
  lists : gmap nat (list bool);
  open_files : gset nat;
  next_fid : nat
}.

(** The world in which the list object [l] holds [v]: the state in which a
    caller has just built the list [v]. *)
Definition with_list (l : nat) (v : list bool) (w : World) : World :=
  {| lists := <[ l := v ]> (lists w);
     open_files := open_files w;
     next_fid := next_fid w |}.

Definition M (A : Type) : Type := World -> result A * World.

Definition ret {A} (a : A) : M A := fun w => (Ok a, w).

Definition raise {A} (e : exn) : M A := fun w => (Raise e, w).

Definition bind {A B} (c : M A) (k : A -> M B) : M B :=
  fun w =>
    match c w with
    | (Ok a, w') => k a w'
    | (Raise e, w') => (Raise e, w')
    end.

Definition lift {A} (r : result A) : M A := fun w => (r, w).

Declare Scope py_scope.
Delimit Scope py_scope with py.
Notation "x <- c ;; k" := (bind c (fun x => k))
  (at level 100, c at next level, right associativity) : py_scope.
Notation "c ;;; k" := (bind c (fun _ => k))
  (at level 100, right associativity) : py_scope.

(** ** What the module calls and does not define *)

Class Externals : Type := mk_Externals {
  (** The composite container stored at a path; [None] when [h5py.File]
      cannot open it. *)
  h5_read : string -> option h5py.Group;
  (** The entries [ITKCompositeH5.from_h5obj] decodes. *)
  itk_xfm : Type;
  ITKCompositeH5_from_h5obj : h5py.File -> result (list itk_xfm);
  (** [.to_ras()] of a decoded linear entry. *)
  ITK_to_ras : itk_xfm -> result Matrix;
  (** The matrix [nt.linear.load] reads from a linear-transform file. *)
  nt_linear_load : string -> result Matrix;
  (** The inverse of a 4x4 matrix. *)
  linalg_inv : Matrix -> result Matrix;
  (** A dense displacement field evaluated at a point. *)
  dense_field_map : np.ndarray -> Matrix -> point -> point;
  (** [str()] of a byte string and of an array, as f-strings format them. *)
  str_bytes : string -> string;
  str_array : np.ndarray -> string
}.

(** ** fmriprep.utils.transforms *)

Definition FIXED_PARAMS : np.ndarray :=
  np.array [
    193.0; 229.0; 193.0;
    96.0; 132.0; -78.0;
    1.0; 1.0; 1.0;
    -1.0; 0.0; 0.0;
    0.0; -1.0; 0.0;
    0.0; 0.0; 1.0
  ]%float.

(** The world once a file has been opened: the next handle is handed out
    and recorded as open. *)
Definition opened (w : World) : World :=
  {| lists := lists w;
     open_files := {[ next_fid w ]} ∪ open_files w;
     next_fid := S (next_fid w) |}.


Section Parse.
Context {E : Externals}.

(** [h5py.File(h5_fn)]: opens a handle on the container. *)
Definition h5py_File (h5_fn : string) : M h5py.File :=
  fun w =>
    match h5_read h5_fn with
    | None => (Raise (OSError h5_fn), w)
    | Some g =>
        (Ok {| h5py.fid := next_fid w; h5py.TransformGroup := g |}, opened w)
    end.

(** [group[key]]. *)
Definition group_getitem (g : h5py.Group) (key : string) : M h5py.Entry :=
  match h5py.lookup g key with
  | Some e => ret e
  | None => raise (KeyError key)
  end.

(** [xform[0]]. *)
Definition list_getitem0 {A} (l : list A) : M A :=
  match l with
  | x :: _ => ret x
  | [] => raise IndexError
  end.

(** [f'[{i}]: {entry["TransformType"][:][0]}\n']. *)
Definition type_line (i : string) (e : h5py.Entry) : string :=
  "[" ++ i ++ "]: " ++ str_bytes (h5py.TransformType e) ++ nl.

(** The loop that lists every member's declared type. *)
Fixpoint type_lines (g : h5py.Group) (ks : list string) (msg : string) : M string :=
  match ks with
  | [] => ret msg
  | i :: rest =>
      (e <- group_getitem g i ;;
       type_lines g rest (msg ++ type_line i e))%py
  end.

Definition warp_affine_literal : Matrix :=
  [ [1.0; 0.0; 0.0; -96.0];
    [0.0; 1.0; 0.0; -132.0];
    [0.0; 0.0; 1.0; -78.0];
    [0.0; 0.0; 0.0; 1.0] ]%float.

Definition parse_combined_hdf5 (h5_fn : string) (to_ras : bool)
  : M (Matrix * np.ndarray * Matrix) :=
  (h <- h5py_File h5_fn ;;
   xform <- lift (ITKCompositeH5_from_h5obj h) ;;
   xform0 <- list_getitem0 xform ;;
   affine <- lift (ITK_to_ras xform0) ;;
   transform2 <- group_getitem (h5py.TransformGroup h) "2" ;;
   if negb (String.eqb (h5py.TransformType transform2)
                       "DisplacementFieldTransform_float_3_3") then
     (msg <- type_lines (h5py.TransformGroup h)
                        (h5py.keys (h5py.TransformGroup h))
                        ("Unknown transform type [2]" ++ nl) ;;
      raise (ValueError msg))
   else if negb (np.array_equal (h5py.TransformFixedParameters transform2)
                                FIXED_PARAMS) then
     raise (ValueError
              ("Unexpected fixed parameters" ++ nl
               ++ "Expected: " ++ str_array FIXED_PARAMS ++ nl
               ++ "Found: "
               ++ str_array (h5py.TransformFixedParameters transform2)))
   else
     (transform2' <- group_getitem (h5py.TransformGroup h) "2" ;;
      warp <- lift (np.reshape (h5py.TransformParameters transform2')
                               [193; 229; 193; 3]) ;;
      warp <- lift (np.transpose warp [2; 1; 0; 3]%nat) ;;
      warp <- lift (np.imul warp (np.array [-1; -1; 1]%float)) ;;
      let warp_affine := warp_affine_literal in
      ret (affine, warp, warp_affine)))%py.


End Parse.

(** ** pathlib *)

Module pathlib.

Definition slash : ascii := ascii_of_nat 47.
Definition dot : ascii := ascii_of_nat 46.

(** [s.split('/')]. *)
Fixpoint split_slash (s : string) (cur : string) : list string :=
  match s with
  | EmptyString => [cur]
  | String c r =>
      if Ascii.eqb c slash then cur :: split_slash r EmptyString
      else split_slash r (cur ++ String c EmptyString)
  end.

(** The final component of a path; empty and ["."] components are dropped
    when a path is parsed. *)
Definition name (p : string) : string :=
  List.last (List.filter (fun c => negb (String.eqb c "" || String.eqb c "."))
               (split_slash p EmptyString)) "".

(** [name[name.rfind('.'):]], when the name has a dot. *)
Fixpoint from_last_dot (s : string) : option string :=
  match s with
  | EmptyString => None
  | String c r =>
      match from_last_dot r with
      | Some t => Some t
      | None => if Ascii.eqb c dot then Some s else None
      end
  end.

(** [Path(p).suffix]: the text from the last dot of the name, unless that
    dot starts or ends the name. *)
Definition suffix (p : string) : string :=
  match from_last_dot (name p) with
  | Some t =>
      if Nat.ltb 1 (String.length t)
         && Nat.ltb (String.length t) (String.length (name p))
      then t else ""
  | None => ""
  end.

End pathlib.

(** ** nitransforms *)

Module nt.

(** Modelled from the spec: the transform classes of nitransforms, which the
    source imports and does not define. A transform is the identity base
    transform, an affine (a 4x4 matrix), a dense displacement field with
    the affine of its grid, or a chain of transforms. *)
Inductive Transform : Type :=
| TransformBase
| Affine (matrix : Matrix)
| DenseFieldTransform (field : np.ndarray) (affine : Matrix)
| TransformChain (transforms : list Transform).

(** Modelled from the spec: [chain += xfm] of nitransforms; composition
    appends the component at the end of the chain. *)
Definition add (a b : Transform) : Transform :=
  match a with
  | TransformChain ts => TransformChain (ts ++ [b])
  | _ => TransformChain [a; b]
  end.

(** One row of a homogeneous matrix applied to [(x, y, z, 1)]. *)
Definition row_dot (r : list float) (p : point) : float :=
  let '(x, y, z) := p in
  match r with
  | [a; b; c; d] => (a * x + b * y + c * z + d * 1)%float
  | _ => nan
  end.

(** Modelled from the spec: an affine transform maps a coordinate by its
    homogeneous matrix. *)
Definition affine_map (m : Matrix) (p : point) : point :=
  (row_dot (nth 0 m []) p, row_dot (nth 1 m []) p, row_dot (nth 2 m []) p).

Section WithExternals.
Context {E : Externals}.

(** Modelled from the spec: evaluating a transform at a point. The base
    transform is the identity; a chain applies its components in the
    declared order, each consuming the output of the previous; the empty
    chain is the identity. *)
Fixpoint apply (t : Transform) (p : point) : point :=
  match t with
  | TransformBase => p
  | Affine m => affine_map m p
  | DenseFieldTransform f a => dense_field_map f a p
  | TransformChain ts =>
      (fix go (ts : list Transform) (q : point) : point :=
         match ts with
         | [] => q
         | t' :: rest => go rest (apply t' q)
         end) ts p
  end.

(** Modelled from the spec: [~xfm] of nitransforms. An affine is inverted
    by inverting its matrix; a chain by reversing its order and inverting
    each stage; a displacement field has no inverse. *)
Fixpoint invert (t : Transform) : result Transform :=
  match t with
  | TransformBase => Raise (TypeError "bad operand type for unary ~")
  | Affine m =>
      match linalg_inv m with
      | Ok m' => Ok (Affine m')
      | Raise e => Raise e
      end
  | DenseFieldTransform _ _ => Raise (TypeError "bad operand type for unary ~")
  | TransformChain ts =>
      (fix go (ts : list Transform) (acc : list Transform)
         : result Transform :=
         match ts with
         | [] => Ok (TransformChain acc)
         | t' :: rest =>
             match invert t' with
             | Ok i => go rest (i :: acc)
             | Raise e => Raise e
             end
         end) ts []
  end.

End WithExternals.
End nt.

Section Load.
Context {E : Externals}.

Definition load_ants_h5 (filename : string) : M nt.Transform :=
  (r <- parse_combined_hdf5 filename true ;;
   let '(affine, warp, warp_affine) := r in
   let warp_transform := nt.DenseFieldTransform warp warp_affine in
   ret (nt.TransformChain [warp_transform; nt.Affine affine]))%py.

(** [len(inverse)] and the elements of the list object [inverse]. *)
Definition list_read (l : nat) : M (list bool) :=
  fun w =>
    match lists w !! l with
    | Some v => (Ok v, w)
    | None => (Raise (TypeError "object is not a list"), w)
    end.

(** [inverse *= n]: the list object is repeated in place. *)
Definition list_imul (l : nat) (n : nat) : M unit :=
  fun w =>
    match lists w !! l with
    | Some v =>
        (Ok tt,
         {| lists := <[ l := concat (replicate n v) ]> (lists w);
            open_files := open_files w;
            next_fid := next_fid w |})
    | None => (Raise (TypeError "object is not a list"), w)
    end.

(** The body of the [for path, inv in zip(...)] loop, over the pairs left
    to visit, with the value of [chain] so far ([None] before the first). *)
Fixpoint load_loop (items : list (string * bool)) (chain : option nt.Transform)
  : M (option nt.Transform) :=
  match items with
  | [] => ret chain
  | (path, inv) :: rest =>
      (xfm <- (if String.eqb (pathlib.suffix path) ".h5" then
                 load_ants_h5 path
               else
                 (m <- lift (nt_linear_load path) ;; ret (nt.Affine m))) ;;
       xfm <- (if inv : bool then lift (nt.invert xfm) else ret xfm) ;;
       let chain :=
         match chain with
         | None => xfm
         | Some c => nt.add c xfm
         end in
       load_loop rest (Some chain))%py
  end.

(** [load_transforms(xfm_paths, inverse)]; [inverse] is the identity of the
    caller's list object. *)
Definition load_transforms (xfm_paths : list string) (inverse : nat)
  : M nt.Transform :=
  (inv <- list_read inverse ;;
   (if Nat.eqb (List.length inv) 1 then
      list_imul inverse (List.length xfm_paths)
    else if negb (Nat.eqb (List.length inv) (List.length xfm_paths)) then
      raise (ValueError "Mismatched number of transforms and inverses")
    else ret tt) ;;;
   inv <- list_read inverse ;;
   chain <- load_loop (combine (rev xfm_paths) (rev inv)) None ;;
   match chain with
   | None => ret nt.TransformBase
   | Some c => ret c
   end)%py.

(** The part of [load_transforms] after the normalisation of [inverse]
    (from [chain = None] to [return chain]), for the flags [inv] that the
    list then holds. *)
Definition load_chain (xfm_paths : list string) (inv : list bool)
  : M nt.Transform :=
  (chain <- load_loop (combine (rev xfm_paths) (rev inv)) None ;;
   match chain with
   | None => ret nt.TransformBase
   | Some c => ret c
   end)%py.

End Load.

(** ** Preconditions and effects of a computation *)

(** The steps of [parse_combined_hdf5] before its validation succeed: the
    container opens, the composite header decodes to the affine [affine],
    and member ["2"] of the group is [e2]. *)
Definition reaches_validation {E : Externals} (h5_fn : string) (w : World)
    (g : h5py.Group) (affine : Matrix) (e2 : h5py.Entry) : Prop :=
  h5_read h5_fn = Some g
  /\ (exists xf xs,
        ITKCompositeH5_from_h5obj
          {| h5py.fid := next_fid w; h5py.TransformGroup := g |}
          = Ok (xf :: xs)
        /\ ITK_to_ras xf = Ok affine)
  /\ h5py.lookup g "2" = Some e2.

(** What one turn of the loop of [load_transforms] makes of [chain] when the
    file is an affine with matrix [m] and its flag is false. *)
Definition push (chain : option nt.Transform) (m : Matrix)
  : option nt.Transform :=
  Some match chain with
       | None => nt.Affine m
       | Some c => nt.add c (nt.Affine m)
       end.

(** The test of the loop of [load_transforms]: [path.suffix == '.h5']. *)
Definition is_h5 (path : string) : bool :=
  String.eqb (pathlib.suffix path) ".h5".

(** A file that the loop of [load_transforms] can load: a composite
    container that opens, or a linear-transform file that reads. *)
Definition loadable {E : Externals} (path : string) : Prop :=
  if is_h5 path then exists g, h5_read path = Some g
  else exists m, nt_linear_load path = Ok m.

(** The matrix that a linear file contributes under its flag: the matrix
    read, or its inverse. *)
Definition contributes {E : Externals} (path : string) (inv : bool)
    (eff : Matrix) : Prop :=
  is_h5 path = false
  /\ exists m,
       nt_linear_load path = Ok m
       /\ if inv then linalg_inv m = Ok eff else eff = m.

(** The first three rows of the translation column of a 4x4 matrix. *)
Definition translation_of (m : Matrix) : list float :=
  map (fun row => nth 3 row nan) (firstn 3 m).

(** The 3x3 linear part of a 4x4 matrix. *)
Definition linear_of (m : Matrix) : Matrix := map (firstn 3) (firstn 3 m).

(** The grid origin in a fixed-parameters vector: elements 3, 4 and 5. *)
Definition origin_of (fixed : np.ndarray) : list float :=
  [np.item fixed [3]; np.item fixed [4]; np.item fixed [5]].


(** A computation that leaves the world as it found it. *)
Definition stateless {A} (c : M A) : Prop := forall w, snd (c w) = w.

(** A computation that leaves every Python list object as it found it. *)
Definition keeps_lists {A} (c : M A) : Prop :=
  forall w, lists (snd (c w)) = lists w.

(** A computation that opens and closes no handle. *)
Definition keeps_files {A} (c : M A) : Prop :=
  forall w,
    open_files (snd (c w)) = open_files w
    /\ next_fid (snd (c w)) = next_fid w.

(** ** A concrete environment

    A small file system and stand-ins for the collaborators, on which the
    functions above can be run. *)

Module Demo.

(** A displacement record of the expected length whose element at flat
    position [i] is the number [i]. *)
Definition ramp (n : Z) : np.ndarray :=
  {| np.shape := [n];
     np.item := fun idx =>
       match idx with
       | [i] => PrimFloat.of_uint63 (Uint63.of_Z i)
       | _ => 0%float
       end |}.

Definition header : h5py.Entry :=
  {| h5py.TransformType := "CompositeTransform_double_3_3";
     h5py.TransformFixedParameters := np.array [];
     h5py.TransformParameters := np.array [] |}.

Definition linear : h5py.Entry :=
  {| h5py.TransformType := "AffineTransform_float_3_3";
     h5py.TransformFixedParameters := np.array [0; 0; 0]%float;
     h5py.TransformParameters :=
       np.array [1; 0; 0; 0; 1; 0; 0; 0; 1; 0; 0; 0]%float |}.

Definition displacement (ty : string) (fixed : np.ndarray) : h5py.Entry :=
  {| h5py.TransformType := ty;
     h5py.TransformFixedParameters := fixed;
     h5py.TransformParameters := ramp 25590063 |}.

Definition container (ty : string) (fixed : np.ndarray) : h5py.Group :=
  [ ("0", header); ("1", linear); ("2", displacement ty fixed) ].

(** The reference vector with the grid origin's third component altered. *)
Definition altered_fixed : np.ndarray :=
  np.array [
    193.0; 229.0; 193.0;
    96.0; 132.0; 78.0;
    1.0; 1.0; 1.0;
    -1.0; 0.0; 0.0;
    0.0; -1.0; 0.0;
    0.0; 0.0; 1.0
  ]%float.

Definition files_h5 (p : string) : option h5py.Group :=
  if String.eqb p "warp.h5" then
    Some (container "DisplacementFieldTransform_float_3_3" FIXED_PARAMS)
  else if String.eqb p "bspline.h5" then
    Some (container "BSplineTransform_float_3_3" FIXED_PARAMS)
  else if String.eqb p "shifted.h5" then
    Some (container "DisplacementFieldTransform_float_3_3" altered_fixed)
  else if String.eqb p "both.h5" then
    Some (container "BSplineTransform_float_3_3" altered_fixed)
  else None.

Definition files_linear (p : string) : result Matrix :=
  if String.eqb p "A.tfm" then Ok (translation 1 0 0)
  else if String.eqb p "B.tfm" then Ok (translation 0 1 0)
  else if String.eqb p "S.tfm" then Ok (scaling 2)
  else Raise (OSError p).

(** The inverse of a pure translation; other matrices are refused. *)
Definition inv_translation (m : Matrix) : result Matrix :=
  match m with
  | [ [a; b; c; tx]; [d; e; f; ty]; [g; h; i; tz]; _ ] =>
      if forallb (fun v => PrimFloat.eqb v 1) [a; e; i]
         && forallb (fun v => PrimFloat.eqb v 0) [b; c; d; f; g; h]
      then Ok (translation (- tx) (- ty) (- tz))
      else Raise (LibraryError "Singular matrix")
  | _ => Raise (LibraryError "Singular matrix")
  end.

#[export] Instance env : Externals :=
  {| h5_read := files_h5;
     itk_xfm := Matrix;
     ITKCompositeH5_from_h5obj := fun _ => Ok [translation 0 0 0];
     ITK_to_ras := fun m => Ok m;
     nt_linear_load := files_linear;
     linalg_inv := inv_translation;
     dense_field_map := fun _ _ p => p;
     str_bytes := fun s => "b'" ++ s ++ "'";
     str_array := fun a => "<array>" |}.

Definition world0 : World :=
  {| lists := ∅; open_files := ∅; next_fid := 3%nat |}.

(** The array of a result that is known to be [Ok]. *)
Definition unwrap (r : result np.ndarray) : np.ndarray :=
  match r with
  | Ok a => a
  | Raise _ => np.array []
  end.

(** The three arrays [parse_combined_hdf5] goes through on [warp.h5]. *)
Definition stored : np.ndarray :=
  unwrap (np.reshape (ramp 25590063) [193; 229; 193; 3]).
Definition moved : np.ndarray :=
  unwrap (np.transpose stored [2; 1; 0; 3]%nat).
Definition warp : np.ndarray :=
  unwrap (np.imul moved (np.array [-1; -1; 1]%float)).

End Demo.

(** The same environment with two more containers: one without member
    ["2"], one whose parameters record is too short. *)
Module Demo2.

Definition short_displacement : h5py.Entry :=
  {| h5py.TransformType := "DisplacementFieldTransform_float_3_3";
     h5py.TransformFixedParameters := FIXED_PARAMS;
     h5py.TransformParameters := Demo.ramp 12 |}.

Definition files_h5 (p : string) : option h5py.Group :=
  if String.eqb p "headeronly.h5" then
    Some [ ("0", Demo.header); ("1", Demo.linear) ]
  else if String.eqb p "short.h5" then
    Some [ ("0", Demo.header); ("1", Demo.linear); ("2", short_displacement) ]
  else Demo.files_h5 p.

#[export] Instance env : Externals :=
  {| h5_read := files_h5;
     itk_xfm := Matrix;
     ITKCompositeH5_from_h5obj := fun _ => Ok [translation 0 0 0];
     ITK_to_ras := fun m => Ok m;
     nt_linear_load := Demo.files_linear;
     linalg_inv := Demo.inv_translation;
     dense_field_map := fun _ _ p => p;
     str_bytes := fun s => "b'" ++ s ++ "'";
     str_array := fun a => "<array>" |}.

End Demo2.

(** * Properties *)

(** ** Effects of the monadic operations *)

Create HintDb frame.

Lemma stateless_ret {A} (a : A) : stateless (ret a).
Proof. intros w. reflexivity. Qed.

Lemma stateless_raise {A} (e : exn) : stateless (@raise A e).
Proof. intros w. reflexivity. Qed.

Lemma stateless_lift {A} (r : result A) : stateless (lift r).
Proof. intros w. reflexivity. Qed.

Lemma stateless_bind {A B} (c : M A) (k : A -> M B) :
  stateless c -> (forall a, stateless (k a)) -> stateless (bind c k).
Proof.
  intros Hc Hk w. unfold bind.
  specialize (Hc w). destruct (c w) as [[a | e] w1]; simpl in *; subst.
  - apply Hk.
  - reflexivity.
Qed.

Lemma keeps_lists_bind {A B} (c : M A) (k : A -> M B) :
  keeps_lists c -> (forall a, keeps_lists (k a)) -> keeps_lists (bind c k).
Proof.
  intros Hc Hk w. unfold bind.
  specialize (Hc w). destruct (c w) as [[a | e] w1]; simpl in *.
  - rewrite Hk. exact Hc.
  - exact Hc.
Qed.

Lemma stateless_keeps_lists {A} (c : M A) : stateless c -> keeps_lists c.
Proof. intros H w. rewrite H. reflexivity. Qed.

#[export] Hint Resolve stateless_ret stateless_raise stateless_lift : frame.

Section FrameLemmas.
Context {E : Externals}.

Lemma stateless_group_getitem g key : stateless (group_getitem g key).
Proof. unfold group_getitem. destruct (h5py.lookup g key); auto with frame. Qed.

Lemma stateless_list_getitem0 {A} (l : list A) : stateless (list_getitem0 l).
Proof. destruct l; simpl; auto with frame. Qed.

Lemma stateless_type_lines g ks : forall msg, stateless (type_lines g ks msg).
Proof.
  induction ks as [| k ks IH]; intros msg; simpl.
  - auto with frame.
  - apply stateless_bind; [apply stateless_group_getitem | intros e; apply IH].
Qed.

Ltac as_stateless :=
  match goal with
  | |- snd (?c ?w) = ?w => revert w; change (stateless c)
  end.

Ltac stateless_steps :=
  repeat first
    [ apply stateless_bind
    | apply stateless_group_getitem
    | apply stateless_list_getitem0
    | apply stateless_type_lines
    | apply stateless_ret
    | apply stateless_raise
    | apply stateless_lift
    | match goal with
      | |- stateless (if ?b then _ else _) => destruct b
      | |- stateless (let '(_, _) := ?r in _) => destruct r
      | |- forall _, _ => intro
      end ].

(** Past the opening of the file, [parse_combined_hdf5] changes nothing in
    the world: the world it leaves is the one [h5py.File] left. *)
Lemma parse_combined_hdf5_world h5_fn to_ras w :
  snd (parse_combined_hdf5 h5_fn to_ras w) = snd (h5py_File h5_fn w).
Proof.
  unfold parse_combined_hdf5. unfold bind at 1.
  destruct (h5py_File h5_fn w) as [[h | e] w1]; simpl; [| reflexivity].
  as_stateless. stateless_steps.
Qed.

End FrameLemmas.

(** ** Strings and index ranges *)




Lemma In_range (n i : Z) : 0 <= i < n -> In i (np.range n).
Proof.
  intros Hi. unfold np.range. apply in_map_iff.
  exists (Z.to_nat i). split; [lia |]. apply in_seq. lia.
Qed.

Lemma list_eqb_eq (l1 l2 : list Z) : np.list_eqb l1 l2 = true -> l1 = l2.
Proof.
  revert l2. induction l1 as [| x l1 IH]; intros [| y l2]; simpl;
    try discriminate; [reflexivity |].
  intros H. apply andb_prop in H as [Hx Hl].
  apply Z.eqb_eq in Hx. subst. f_equal. now apply IH.
Qed.

(** A vector that differs from [FIXED_PARAMS] at one position is not
    [array_equal] to it. *)
Lemma array_equal_differs (fixed : np.ndarray) (i : Z) :
  0 <= i < 18 ->
  PrimFloat.eqb (np.item fixed [i]) (np.item FIXED_PARAMS [i]) = false ->
  np.array_equal fixed FIXED_PARAMS = false.
Proof.
  intros Hi Hne. unfold np.array_equal.
  destruct (np.list_eqb (np.shape fixed) (np.shape FIXED_PARAMS)) eqn:Hs;
    [| reflexivity].
  apply list_eqb_eq in Hs. rewrite Hs, andb_true_l.
  apply not_true_is_false. intros Hall.
  rewrite forallb_forall in Hall.
  specialize (Hall [i]). rewrite Hne in Hall.
  assert (Hin : In [i] (np.ndindex (np.shape FIXED_PARAMS))).
  { change (np.ndindex (np.shape FIXED_PARAMS))
      with (flat_map (fun i => map (cons i) [[]]) (np.range 18)).
    apply in_flat_map. exists i. split; [now apply In_range | now left]. }
  specialize (Hall Hin). discriminate.
Qed.

Section ParseLemmas.
Context {E : Externals}.


End ParseLemmas.

(** ** Validation in [parse_combined_hdf5] *)

Section Validation.
Context {E : Externals}.

Ltac parse_steps Hg Hx Hr H2 :=
  unfold parse_combined_hdf5, h5py_File;
  unfold bind at 1; rewrite Hg; cbv beta iota;
  unfold bind at 1, lift at 1; cbn [h5py.TransformGroup]; rewrite Hx;
  cbv beta iota;
  unfold bind at 1, list_getitem0, ret at 1; cbv beta iota;
  unfold bind at 1, lift at 1; rewrite Hr; cbv beta iota;
  unfold bind at 1, group_getitem at 1; rewrite H2; unfold ret at 1;
  cbv beta iota.

Lemma parse_unsupported h5_fn to_ras w g affine e2 :
  reaches_validation h5_fn w g affine e2 ->
  h5py.TransformType e2 <> "DisplacementFieldTransform_float_3_3" ->
  parse_combined_hdf5 h5_fn to_ras w
  = bind (type_lines g (h5py.keys g) ("Unknown transform type [2]" ++ nl))
         (fun msg => raise (ValueError msg)) (opened w).
Proof.
  intros (Hg & (xf & xs & Hx & Hr) & H2) Hty.
  apply String.eqb_neq in Hty.
  parse_steps Hg Hx Hr H2. rewrite Hty. reflexivity.
Qed.

Lemma parse_fixed_mismatch h5_fn to_ras w g affine e2 :
  reaches_validation h5_fn w g affine e2 ->
  h5py.TransformType e2 = "DisplacementFieldTransform_float_3_3" ->
  np.array_equal (h5py.TransformFixedParameters e2) FIXED_PARAMS = false ->
  parse_combined_hdf5 h5_fn to_ras w
  = (Raise (ValueError
              ("Unexpected fixed parameters" ++ nl
               ++ "Expected: " ++ str_array FIXED_PARAMS ++ nl
               ++ "Found: "
               ++ str_array (h5py.TransformFixedParameters e2))),
     opened w).
Proof.
  intros (Hg & (xf & xs & Hx & Hr) & H2) Hty Hfix.
  apply String.eqb_eq in Hty.
  parse_steps Hg Hx Hr H2. rewrite Hty, Hfix. reflexivity.
Qed.

Lemma parse_valid h5_fn to_ras w g affine e2 :
  reaches_validation h5_fn w g affine e2 ->
  h5py.TransformType e2 = "DisplacementFieldTransform_float_3_3" ->
  np.array_equal (h5py.TransformFixedParameters e2) FIXED_PARAMS = true ->
  parse_combined_hdf5 h5_fn to_ras w
  = match np.reshape (h5py.TransformParameters e2) [193; 229; 193; 3] with
    | Ok stored =>
        match np.transpose stored [2; 1; 0; 3]%nat with
        | Ok moved =>
            match np.imul moved (np.array [-1; -1; 1]%float) with
            | Ok warp => (Ok (affine, warp, warp_affine_literal), opened w)
            | Raise e => (Raise e, opened w)
            end
        | Raise e => (Raise e, opened w)
        end
    | Raise e => (Raise e, opened w)
    end.
Proof.
  intros (Hg & (xf & xs & Hx & Hr) & H2) Hty Hfix.
  apply String.eqb_eq in Hty.
  parse_steps Hg Hx Hr H2. rewrite Hty, Hfix. cbv beta iota.
  unfold negb. cbv beta iota.
  unfold bind at 1, group_getitem at 1. rewrite H2. unfold ret at 1.
  cbv beta iota.
  unfold bind, lift, ret.
  destruct (np.reshape _ _) as [stored | e]; [| reflexivity].
  destruct (np.transpose _ _) as [moved | e]; [| reflexivity].
  destruct (np.imul _ _) as [warp | e]; reflexivity.
Qed.

(** What a successful call went through. *)
Lemma parse_ok_inv h5_fn to_ras w affine warp warp_affine w' :
  parse_combined_hdf5 h5_fn to_ras w = (Ok (affine, warp, warp_affine), w') ->
  exists g e2 stored moved,
    reaches_validation h5_fn w g affine e2
    /\ h5py.TransformType e2 = "DisplacementFieldTransform_float_3_3"
    /\ np.array_equal (h5py.TransformFixedParameters e2) FIXED_PARAMS = true
    /\ np.reshape (h5py.TransformParameters e2) [193; 229; 193; 3] = Ok stored
    /\ np.transpose stored [2; 1; 0; 3]%nat = Ok moved
    /\ np.imul moved (np.array [-1; -1; 1]%float) = Ok warp
    /\ warp_affine = warp_affine_literal
    /\ w' = opened w.
Proof.
  intros H.
  destruct (h5_read h5_fn) as [g |] eqn:Hg.
  2:{ unfold parse_combined_hdf5, h5py_File in H. unfold bind at 1 in H.
      rewrite Hg in H. discriminate. }
  destruct (ITKCompositeH5_from_h5obj
              {| h5py.fid := next_fid w; h5py.TransformGroup := g |})
    as [[| xf xs] | e] eqn:Hx.
  1, 3: unfold parse_combined_hdf5, h5py_File in H; unfold bind at 1 in H;
        rewrite Hg in H; cbv beta iota in H;
        unfold bind at 1, lift at 1 in H; rewrite Hx in H; discriminate.
  destruct (ITK_to_ras xf) as [aff |] eqn:Hr.
  2:{ unfold parse_combined_hdf5, h5py_File in H. unfold bind at 1 in H.
      rewrite Hg in H. cbv beta iota in H.
      unfold bind at 1, lift at 1 in H. rewrite Hx in H. cbv beta iota in H.
      unfold bind at 1, list_getitem0, ret at 1 in H. cbv beta iota in H.
      unfold bind at 1, lift at 1 in H. rewrite Hr in H. discriminate. }
  destruct (h5py.lookup g "2") as [e2 |] eqn:H2.
  2:{ unfold parse_combined_hdf5, h5py_File in H. unfold bind at 1 in H.
      rewrite Hg in H. cbv beta iota in H.
      unfold bind at 1, lift at 1 in H. rewrite Hx in H. cbv beta iota in H.
      unfold bind at 1, list_getitem0, ret at 1 in H. cbv beta iota in H.
      unfold bind at 1, lift at 1 in H. rewrite Hr in H. cbv beta iota in H.
      unfold bind at 1, group_getitem at 1 in H. cbn [h5py.TransformGroup] in H.
      rewrite H2 in H. discriminate. }
  assert (Hreach : reaches_validation h5_fn w g aff e2).
  { split; [exact Hg | split; [exists xf, xs; split; assumption | exact H2]]. }
  destruct (String.eqb_spec (h5py.TransformType e2)
              "DisplacementFieldTransform_float_3_3") as [Hty | Hty].
  2:{ rewrite (parse_unsupported _ _ _ _ _ _ Hreach Hty) in H.
      unfold bind, raise in H.
      destruct (type_lines _ _ _ _) as [[msg | e] w1]; discriminate. }
  destruct (np.array_equal (h5py.TransformFixedParameters e2) FIXED_PARAMS)
    eqn:Hfix.
  2:{ rewrite (parse_fixed_mismatch _ _ _ _ _ _ Hreach Hty Hfix) in H.
      discriminate. }
  rewrite (parse_valid _ _ _ _ _ _ Hreach Hty Hfix) in H.
  destruct (np.reshape _ _) as [stored |] eqn:Hs; [| discriminate].
  destruct (np.transpose _ _) as [moved |] eqn:Hm; [| discriminate].
  destruct (np.imul _ _) as [wp |] eqn:Hi; [| discriminate].
  injection H as <- <- <- <-.
  exists g, e2, stored, moved. repeat split; try assumption; try reflexivity.
  - exists xf, xs. split; assumption.
Qed.

End Validation.

(** ** The validation errors *)

Section Errors.
Context {E : Externals}.


(** C5: a fixed-parameters vector that differs from the reference vector
    at some position [i] is never accepted, whatever else the container
    holds; and on a container that reaches the check (its header decodes
    and the declared type of member ["2"], validated first, is the expected
    one), the error raised is the unexpected-fixed-parameters ValueError,
    whose message shows the expected and the found vectors. *)
Theorem parse_combined_hdf5_fixed_parameters h5_fn to_ras w g e2 i :
  h5_read h5_fn = Some g ->
  h5py.lookup g "2" = Some e2 ->
  0 <= i < 18 ->
  PrimFloat.eqb (np.item (h5py.TransformFixedParameters e2) [i])
                (np.item FIXED_PARAMS [i]) = false ->
  (forall r w', parse_combined_hdf5 h5_fn to_ras w <> (Ok r, w'))
  /\ (forall affine,
        reaches_validation h5_fn w g affine e2 ->
        h5py.TransformType e2 = "DisplacementFieldTransform_float_3_3" ->
        parse_combined_hdf5 h5_fn to_ras w
        = (Raise (ValueError
                    ("Unexpected fixed parameters" ++ nl
                     ++ "Expected: " ++ str_array FIXED_PARAMS ++ nl
                     ++ "Found: "
                     ++ str_array (h5py.TransformFixedParameters e2))),
           opened w)).
Proof.
  intros Hg H2 Hi Hne.
  pose proof (array_equal_differs _ i Hi Hne) as Hfix.
  split.
  - intros [[affine warp] warp_affine] w' Hok.
    apply parse_ok_inv in Hok
      as (g' & e2' & stored & moved & Hreach & _ & Heq & _).
    destruct Hreach as (Hg' & _ & H2').
    rewrite Hg in Hg'. injection Hg' as <-.
    rewrite H2 in H2'. injection H2' as <-.
    rewrite Hfix in Heq. discriminate.
  - intros affine Hreach Hty.
    exact (parse_fixed_mismatch _ _ _ _ _ _ Hreach Hty Hfix).
Qed.

(** C6, as the code has it: on every successful parse the returned
    [warp_affine] is the fixed matrix with identity linear part and
    translation column (-96, -132, -78); that translation is the origin
    (96, 132, -78) of the fixed parameters with its first two components
    negated and its third unchanged. *)
Theorem parse_combined_hdf5_warp_affine
    h5_fn to_ras w affine warp warp_affine w' :
  parse_combined_hdf5 h5_fn to_ras w = (Ok (affine, warp, warp_affine), w') ->
  warp_affine
    = [ [1; 0; 0; -96]; [0; 1; 0; -132]; [0; 0; 1; -78]; [0; 0; 0; 1] ]%float
  /\ linear_of warp_affine = [ [1; 0; 0]; [0; 1; 0]; [0; 0; 1] ]%float
  /\ translation_of warp_affine = [-96; -132; -78]%float
  /\ origin_of FIXED_PARAMS = [96; 132; -78]%float
  /\ translation_of warp_affine
     = match origin_of FIXED_PARAMS with
       | [ox; oy; oz] => [- ox; - oy; oz]%float
       | _ => []
       end.
Proof.
  intros Hok.
  apply parse_ok_inv in Hok as (g & e2 & stored & moved & _ & _ & _ & _ & _ & _ & -> & _).
  repeat split; reflexivity.
Qed.

(** C9, as the code has it: the [TransformParameters] record of a container
    that parses has [193*229*193*3] elements, and that product is
    25,590,063. *)
Theorem parse_combined_hdf5_parameters_size
    h5_fn to_ras w affine warp warp_affine w' :
  parse_combined_hdf5 h5_fn to_ras w = (Ok (affine, warp, warp_affine), w') ->
  exists g e2,
    h5_read h5_fn = Some g
    /\ h5py.lookup g "2" = Some e2
    /\ np.size (h5py.TransformParameters e2) = 193 * 229 * 193 * 3
    /\ np.size (h5py.TransformParameters e2) = 25590063.
Proof.
  intros Hok.
  apply parse_ok_inv in Hok
    as (g & e2 & stored & moved & Hreach & _ & _ & Hs & _).
  destruct Hreach as (Hg & _ & H2).
  exists g, e2. split; [exact Hg | split; [exact H2 |]].
  unfold np.reshape in Hs.
  destruct (_ =? _) eqn:Hsize in Hs; [| discriminate].
  apply Z.eqb_eq in Hsize. rewrite <- Hsize. split; reflexivity.
Qed.

End Errors.


(** ** The displacement field *)

Section Warp.
Context {E : Externals}.

Lemma reshape_flat (a : np.ndarray) :
  np.shape a = [193 * 229 * 193 * 3] ->
  np.reshape a [193; 229; 193; 3]
  = Ok {| np.shape := [193; 229; 193; 3];
          np.item := fun idx =>
            np.item a (np.unravel (np.shape a)
                                  (np.ravel [193; 229; 193; 3] idx)) |}.
Proof.
  intros Hs. unfold np.reshape, np.size. rewrite Hs. reflexivity.
Qed.

(** The element of the reshaped record at [[z, y, x, c]] is the element of
    the flat record at the row-major position of that index. *)
Lemma stored_item (a stored : np.ndarray) (x y z c : Z) :
  np.shape a = [193 * 229 * 193 * 3] ->
  np.reshape a [193; 229; 193; 3] = Ok stored ->
  0 <= x < 193 -> 0 <= y < 229 -> 0 <= z < 193 -> 0 <= c < 3 ->
  np.item stored [z; y; x; c]
  = np.item a [((z * 229 + y) * 193 + x) * 3 + c].
Proof.
  intros Hs Hr Hx Hy Hz Hc. rewrite (reshape_flat a Hs) in Hr.
  injection Hr as <-. cbn [np.item]. rewrite Hs.
  unfold np.ravel. cbn [np.ravel_from np.unravel fold_right].
  f_equal. f_equal.
  rewrite Z.div_1_r, Z.mod_small; lia.
Qed.

(** C1: for a container that passes the type and the fixed-parameter
    validation, and whose flat [TransformParameters] record has the
    [193*229*193*3] elements of the format, [parse_combined_hdf5] returns a
    warp of shape (193, 229, 193, 3) whose element at [[x, y, z, c]] is the
    element at [[z, y, x, c]] of the record reshaped to (193, 229, 193, 3),
    multiplied by -1 for [c] in {0, 1} and by 1 for [c = 2]. *)
Theorem parse_combined_hdf5_warp h5_fn to_ras w g affine e2 :
  reaches_validation h5_fn w g affine e2 ->
  h5py.TransformType e2 = "DisplacementFieldTransform_float_3_3" ->
  np.array_equal (h5py.TransformFixedParameters e2) FIXED_PARAMS = true ->
  np.shape (h5py.TransformParameters e2) = [193 * 229 * 193 * 3] ->
  exists stored warp,
    np.reshape (h5py.TransformParameters e2) [193; 229; 193; 3] = Ok stored
    /\ parse_combined_hdf5 h5_fn to_ras w
       = (Ok (affine, warp, warp_affine_literal), opened w)
    /\ np.shape warp = [193; 229; 193; 3]
    /\ forall x y z c,
         0 <= x < 193 -> 0 <= y < 229 -> 0 <= z < 193 -> 0 <= c < 3 ->
         np.item stored [z; y; x; c]
           = np.item (h5py.TransformParameters e2)
                     [((z * 229 + y) * 193 + x) * 3 + c]
         /\ np.getitem warp [x; y; z; c]
            = Some (PrimFloat.mul (np.item stored [z; y; x; c])
                                  (if c =? 2 then 1%float else (-1)%float)).
Proof.
  intros Hreach Hty Hfix Hs.
  rewrite (parse_valid _ _ _ _ _ _ Hreach Hty Hfix).
  pose proof (reshape_flat _ Hs) as Hr. rewrite Hr.
  eexists _, _. split; [reflexivity |].
  split; [reflexivity |]. split; [reflexivity |].
  intros x y z c Hx Hy Hz Hc.
  split; [now apply stored_item |].
  unfold np.getitem. cbn [np.shape np.in_bounds map nth].
  replace (0 <=? x) with true by lia. replace (x <? 193) with true by lia.
  replace (0 <=? y) with true by lia. replace (y <? 229) with true by lia.
  replace (0 <=? z) with true by lia. replace (z <? 193) with true by lia.
  replace (0 <=? c) with true by lia. replace (c <? 3) with true by lia.
  cbn [andb]. f_equal.
  assert (Hcases : c = 0 \/ c = 1 \/ c = 2) by lia.
  destruct Hcases as [-> | [-> | ->]]; reflexivity.
Qed.

End Warp.

(** ** The containers of the concrete environment *)

Lemma demo_reaches_validation (p ty : string) (fixed : np.ndarray) :
  Demo.files_h5 p = Some (Demo.container ty fixed) ->
  reaches_validation (E := Demo.env) p Demo.world0 (Demo.container ty fixed)
    (translation 0 0 0) (Demo.displacement ty fixed).
Proof.
  intros Hp. split; [exact Hp |]. split; [| reflexivity].
  exists (translation 0 0 0), []. split; reflexivity.
Qed.

Lemma demo_parse_warp :
  parse_combined_hdf5 (E := Demo.env) "warp.h5" true Demo.world0
  = (Ok (translation 0 0 0, Demo.warp, warp_affine_literal),
     opened Demo.world0).
Proof.
  rewrite (parse_valid (E := Demo.env) "warp.h5" true Demo.world0 _ _ _
             (demo_reaches_validation "warp.h5" _ _ eq_refl)
             eq_refl eq_refl).
  reflexivity.
Qed.

Lemma parse_combined_hdf5_warp_witness :
  exists stored warp,
    np.reshape (Demo.ramp 25590063) [193; 229; 193; 3] = Ok stored
    /\ parse_combined_hdf5 (E := Demo.env) "warp.h5" true Demo.world0
       = (Ok (translation 0 0 0, warp, warp_affine_literal),
          opened Demo.world0)
    /\ np.shape warp = [193; 229; 193; 3]
    /\ forall x y z c,
         0 <= x < 193 -> 0 <= y < 229 -> 0 <= z < 193 -> 0 <= c < 3 ->
         np.item stored [z; y; x; c]
           = np.item (Demo.ramp 25590063)
                     [((z * 229 + y) * 193 + x) * 3 + c]
         /\ np.getitem warp [x; y; z; c]
            = Some (PrimFloat.mul (np.item stored [z; y; x; c])
                                  (if c =? 2 then 1%float else (-1)%float)).
Proof.
  apply (parse_combined_hdf5_warp (E := Demo.env) "warp.h5" true Demo.world0
           (Demo.container "DisplacementFieldTransform_float_3_3" FIXED_PARAMS)
           (translation 0 0 0)
           (Demo.displacement "DisplacementFieldTransform_float_3_3"
                              FIXED_PARAMS)).
  - apply demo_reaches_validation. reflexivity.
  - reflexivity.
  - reflexivity.
  - reflexivity.
Defined.


Lemma parse_combined_hdf5_fixed_parameters_witness :
  (forall r w',
     parse_combined_hdf5 (E := Demo.env) "shifted.h5" true Demo.world0
     <> (Ok r, w'))
  /\ parse_combined_hdf5 (E := Demo.env) "shifted.h5" true Demo.world0
     = (Raise (ValueError
                 ("Unexpected fixed parameters" ++ nl
                  ++ "Expected: " ++ "<array>" ++ nl
                  ++ "Found: " ++ "<array>")),
        opened Demo.world0).
Proof.
  destruct (parse_combined_hdf5_fixed_parameters (E := Demo.env)
              "shifted.h5" true Demo.world0
              (Demo.container "DisplacementFieldTransform_float_3_3"
                              Demo.altered_fixed)
              (Demo.displacement "DisplacementFieldTransform_float_3_3"
                                 Demo.altered_fixed)
              5 eq_refl eq_refl ltac:(lia) eq_refl)
    as [Hnever Herror].
  split; [exact Hnever |].
  apply (Herror (translation 0 0 0)); [| reflexivity].
  apply demo_reaches_validation. reflexivity.
Defined.

Lemma parse_combined_hdf5_warp_affine_witness :
  warp_affine_literal
    = [ [1; 0; 0; -96]; [0; 1; 0; -132]; [0; 0; 1; -78]; [0; 0; 0; 1] ]%float
  /\ linear_of warp_affine_literal = [ [1; 0; 0]; [0; 1; 0]; [0; 0; 1] ]%float
  /\ translation_of warp_affine_literal = [-96; -132; -78]%float
  /\ origin_of FIXED_PARAMS = [96; 132; -78]%float
  /\ translation_of warp_affine_literal
     = match origin_of FIXED_PARAMS with
       | [ox; oy; oz] => [- ox; - oy; oz]%float
       | _ => []
       end.
Proof.
  apply (parse_combined_hdf5_warp_affine (E := Demo.env) "warp.h5" true
           Demo.world0 (translation 0 0 0) Demo.warp warp_affine_literal
           (opened Demo.world0)).
  exact demo_parse_warp.
Defined.

(** C6, a counterexample to the claim as stated: [warp.h5] parses, and the
    translation of the returned [warp_affine] is not the elementwise
    negation of the origin (96, 132, -78): its third component is -78, and
    the negation of -78 is 78. *)
Lemma warp_affine_translation_is_not_negated_origin :
  exists affine warp warp_affine w',
    parse_combined_hdf5 (E := Demo.env) "warp.h5" true Demo.world0
    = (Ok (affine, warp, warp_affine), w')
    /\ map PrimFloat.opp (origin_of FIXED_PARAMS) = [-96; -132; 78]%float
    /\ translation_of warp_affine
       <> map PrimFloat.opp (origin_of FIXED_PARAMS).
Proof.
  eexists _, _, _, _. split; [exact demo_parse_warp |].
  split; [reflexivity |].
  intros H.
  apply (f_equal (fun l => PrimFloat.eqb (nth 2 l 0%float) (-78)%float)) in H.
  vm_compute in H. discriminate.
Qed.

Lemma parse_combined_hdf5_parameters_size_witness :
  exists g e2,
    Demo.files_h5 "warp.h5" = Some g
    /\ h5py.lookup g "2" = Some e2
    /\ np.size (h5py.TransformParameters e2) = 193 * 229 * 193 * 3
    /\ np.size (h5py.TransformParameters e2) = 25590063.
Proof.
  apply (parse_combined_hdf5_parameters_size (E := Demo.env) "warp.h5" true
           Demo.world0 (translation 0 0 0) Demo.warp warp_affine_literal
           (opened Demo.world0)).
  exact demo_parse_warp.
Defined.

(** C9, a counterexample to the claim as stated: [warp.h5] parses, and its
    [TransformParameters] record, of [193*229*193*3] elements, does not
    have 40,860,279 elements. *)
Lemma parameters_size_is_not_40860279 :
  exists r w',
    parse_combined_hdf5 (E := Demo.env) "warp.h5" true Demo.world0 = (Ok r, w')
    /\ np.size (Demo.ramp 25590063) = 193 * 229 * 193 * 3
    /\ np.size (Demo.ramp 25590063) <> 40860279.
Proof.
  eexists _, _. split; [exact demo_parse_warp |].
  split; [reflexivity |]. vm_compute. discriminate.
Qed.

(** ** [load_transforms] and the caller's list *)

Lemma concat_replicate_singleton {A} (n : nat) (x : A) :
  concat (replicate n [x]) = replicate n x.
Proof. induction n as [| n IH]; simpl; [reflexivity | now rewrite IH]. Qed.

Lemma rev_replicate {A} (n : nat) (x : A) :
  rev (replicate n x) = replicate n x.
Proof.
  induction n as [| n IH]; simpl; [reflexivity |]. rewrite IH.
  clear IH. induction n as [| n IH]; simpl; [reflexivity | now rewrite IH].
Qed.

Lemma combine_replicate {A B} (l : list A) (y : B) :
  combine l (replicate (List.length l) y) = map (fun x => (x, y)) l.
Proof. induction l as [| x l IH]; simpl; [reflexivity | now rewrite IH]. Qed.

Lemma all_false_replicate (flags : list bool) :
  Forall (eq false) flags -> flags = replicate (List.length flags) false.
Proof.
  induction 1 as [| b flags <- _ IH]; simpl; [reflexivity | now rewrite <- IH].
Qed.

Section LoadLemmas.
Context {E : Externals}.

Lemma keeps_lists_h5py_File h5_fn : keeps_lists (h5py_File h5_fn).
Proof. intros w. unfold h5py_File. destruct (h5_read h5_fn); reflexivity. Qed.

Lemma keeps_lists_parse h5_fn to_ras :
  keeps_lists (parse_combined_hdf5 h5_fn to_ras).
Proof.
  intros w. rewrite parse_combined_hdf5_world. apply keeps_lists_h5py_File.
Qed.

Lemma keeps_lists_load_ants_h5 filename : keeps_lists (load_ants_h5 filename).
Proof.
  unfold load_ants_h5. apply keeps_lists_bind; [apply keeps_lists_parse |].
  intros [[affine warp] warp_affine]. apply stateless_keeps_lists.
  apply stateless_ret.
Qed.

Lemma keeps_lists_load_loop items :
  forall chain, keeps_lists (load_loop items chain).
Proof.
  induction items as [| [path inv] items IH]; intros chain; simpl.
  - apply stateless_keeps_lists, stateless_ret.
  - apply keeps_lists_bind.
    + destruct (String.eqb _ _); [apply keeps_lists_load_ants_h5 |].
      apply stateless_keeps_lists, stateless_bind; auto with frame.
    + intros xfm. apply keeps_lists_bind.
      * destruct inv; apply stateless_keeps_lists; auto with frame.
      * intros xfm'. apply IH.
Qed.

(** [load_transforms] in the three cases of its normalisation. *)
Lemma load_transforms_run xfm_paths inverse v w :
  lists w !! inverse = Some v ->
  load_transforms xfm_paths inverse w
  = if Nat.eqb (List.length v) 1 then
      load_chain xfm_paths (concat (replicate (List.length xfm_paths) v))
        (with_list inverse
           (concat (replicate (List.length xfm_paths) v)) w)
    else if negb (Nat.eqb (List.length v) (List.length xfm_paths)) then
      (Raise (ValueError "Mismatched number of transforms and inverses"), w)
    else load_chain xfm_paths v w.
Proof.
  intros Hv. unfold load_transforms.
  unfold bind at 1, list_read at 1. rewrite Hv. cbv beta iota.
  unfold bind at 1.
  destruct (Nat.eqb (List.length v) 1).
  - unfold list_imul. rewrite Hv. cbv beta iota.
    unfold bind at 1, list_read at 1. cbn [lists].
    rewrite lookup_insert_eq. reflexivity.
  - destruct (negb _); [reflexivity |].
    unfold ret at 1. cbv beta iota.
    unfold bind at 1, list_read at 1. rewrite Hv. reflexivity.
Qed.

Lemma keeps_lists_load_chain xfm_paths inv :
  keeps_lists (load_chain xfm_paths inv).
Proof.
  unfold load_chain. apply keeps_lists_bind; [apply keeps_lists_load_loop |].
  intros [c |]; apply stateless_keeps_lists, stateless_ret.
Qed.

(** The Python lists that [load_transforms] leaves: only [inverse] can
    change, and it does when it has one element. *)
Lemma load_transforms_lists xfm_paths inverse v w :
  lists w !! inverse = Some v ->
  lists (snd (load_transforms xfm_paths inverse w))
  = if Nat.eqb (List.length v) 1 then
      <[ inverse := concat (replicate (List.length xfm_paths) v) ]> (lists w)
    else lists w.
Proof.
  intros Hv. rewrite (load_transforms_run _ _ _ _ Hv).
  destruct (Nat.eqb (List.length v) 1).
  - rewrite keeps_lists_load_chain. reflexivity.
  - destruct (negb _); [reflexivity |]. apply keeps_lists_load_chain.
Qed.

(** C10: when the caller's [inverse] list has exactly one element [b] and
    [xfm_paths] has another length, the call repeats that list object in
    place: whatever the call returns or raises, afterwards the object holds
    [len(xfm_paths)] copies of [b], which is not what it held before; no
    other list object changes. *)
Theorem load_transforms_mutates_inverse xfm_paths inverse b w :
  lists w !! inverse = Some [b] ->
  List.length xfm_paths <> 1%nat ->
  exists v,
    lists (snd (load_transforms xfm_paths inverse w)) !! inverse = Some v
    /\ v = replicate (List.length xfm_paths) b
    /\ List.length v = List.length xfm_paths
    /\ v <> [b]
    /\ forall l, l <> inverse ->
         lists (snd (load_transforms xfm_paths inverse w)) !! l
         = lists w !! l.
Proof.
  intros Hv Hlen.
  rewrite (load_transforms_lists _ _ _ _ Hv). cbn [List.length Nat.eqb].
  rewrite concat_replicate_singleton.
  exists (replicate (List.length xfm_paths) b).
  split; [apply lookup_insert_eq |]. split; [reflexivity |].
  split; [apply length_replicate |]. split.
  - intros Heq. apply (f_equal (@List.length bool)) in Heq.
    rewrite length_replicate in Heq. simpl in Heq. lia.
  - intros l Hl. now apply lookup_insert_ne.
Qed.

(** C3: called with an empty list of paths and an empty [inverse] list,
    [load_transforms] returns, leaves the world as it was, and the
    transform it returns maps every point to itself. *)
Theorem load_transforms_empty_is_identity inverse w :
  lists w !! inverse = Some [] ->
  exists chain,
    load_transforms [] inverse w = (Ok chain, w)
    /\ forall p, nt.apply chain p = p.
Proof.
  intros Hv. exists nt.TransformBase. split; [| reflexivity].
  rewrite (load_transforms_run _ _ _ _ Hv). reflexivity.
Qed.

(** C7: for three paths and a flag [b], the call made with the
    one-element list [[b]] and the call made with [[b, b, b]] have the same
    outcome: the same composed transform or the same exception, and the
    same world afterwards. *)
Theorem load_transforms_broadcasts_single_flag p1 p2 p3 b inverse w :
  load_transforms [p1; p2; p3] inverse (with_list inverse [b] w)
  = load_transforms [p1; p2; p3] inverse (with_list inverse [b; b; b] w).
Proof.
  rewrite (load_transforms_run _ inverse [b] (with_list inverse [b] w))
    by apply lookup_insert_eq.
  rewrite (load_transforms_run _ inverse [b; b; b]
             (with_list inverse [b; b; b] w))
    by apply lookup_insert_eq.
  cbn [List.length Nat.eqb negb replicate concat app].
  unfold with_list. cbn [lists open_files next_fid].
  rewrite insert_insert_eq. reflexivity.
Qed.

End LoadLemmas.

(** ** The order of application *)

Section Order.
Context {E : Externals}.

Lemma apply_chain ts :
  forall p,
    nt.apply (nt.TransformChain ts) p
    = fold_left (fun q t => nt.apply t q) ts p.
Proof.
  induction ts as [| t ts IH]; intros p; [reflexivity |].
  cbn [fold_left]. rewrite <- IH. reflexivity.
Qed.

(** A composed chain applies what it held first, then what was added. *)
Lemma apply_add c x p : nt.apply (nt.add c x) p = nt.apply x (nt.apply c p).
Proof.
  destruct c as [| m | f a | ts]; try reflexivity.
  unfold nt.add. rewrite !apply_chain, fold_left_app. reflexivity.
Qed.

Lemma load_loop_affine ps :
  forall ms chain w,
    Forall2 (fun path m =>
               pathlib.suffix path <> ".h5" /\ nt_linear_load path = Ok m)
            ps ms ->
    load_loop (map (fun path => (path, false)) ps) chain w
    = (Ok (fold_left push ms chain), w).
Proof.
  induction ps as [| path ps IH]; intros ms chain w Hall;
    inversion Hall as [| ? m ? ms' [Hsuf Hload] Hrest]; subst;
    [reflexivity |].
  cbn [map load_loop fold_left]. apply String.eqb_neq in Hsuf.
  rewrite Hsuf. unfold bind at 1. unfold bind at 1, lift at 1.
  rewrite Hload. unfold ret at 1. cbv beta iota.
  unfold bind at 1, ret at 1. cbv beta iota.
  apply (IH ms' (push chain m) w Hrest).
Qed.

Lemma apply_pushed ms :
  forall c,
    exists c',
      fold_left push ms (Some c) = Some c'
      /\ forall p,
           nt.apply c' p
           = fold_left (fun q m => nt.affine_map m q) ms (nt.apply c p).
Proof.
  induction ms as [| m ms IH]; intros c; cbn [fold_left].
  - exists c. split; reflexivity.
  - destruct (IH (nt.add c (nt.Affine m))) as (c' & Hc' & Happ).
    exists c'. split; [exact Hc' |].
    intros p. rewrite Happ, apply_add. reflexivity.
Qed.

Lemma Forall2_rev {A B} (R : A -> B -> Prop) (l : list A) (l' : list B) :
  Forall2 R l l' -> Forall2 R (rev l) (rev l').
Proof.
  induction 1 as [| x y l l' Hxy Hl IH]; simpl; [constructor |].
  apply Forall2_app; [exact IH | repeat constructor; exact Hxy].
Qed.

(** C2, as the code has it: for a non-empty list of affine transform files
    whose inversion flags are all false (one per file, or a single one),
    [load_transforms] returns a chain that applies the transforms in the
    reverse of the order of the paths: the last-listed file is applied to
    the point first, the first-listed last. In particular, for a file
    encoding the translation by (1,0,0) followed in the list by a file
    encoding the translation by (0,1,0), the chain maps (0,0,0) to
    (1,1,0). *)
Theorem load_transforms_applies_in_reverse_order
    xfm_paths ms flags inverse w :
  xfm_paths <> [] ->
  Forall2 (fun path m =>
             pathlib.suffix path <> ".h5" /\ nt_linear_load path = Ok m)
          xfm_paths ms ->
  lists w !! inverse = Some flags ->
  Forall (eq false) flags ->
  List.length flags = List.length xfm_paths \/ List.length flags = 1%nat ->
  exists chain w',
    load_transforms xfm_paths inverse w = (Ok chain, w')
    /\ (forall p,
          nt.apply chain p
          = fold_left (fun q m => nt.affine_map m q) (rev ms) p)
    /\ (ms = [translation 1 0 0; translation 0 1 0] ->
        nt.apply chain (0, 0, 0)%float = (1, 1, 0)%float).
Proof.
  intros Hne Hall Hflags Hfalse Hlen.
  assert (Hrun : exists w',
             load_transforms xfm_paths inverse w
             = load_chain xfm_paths
                 (replicate (List.length xfm_paths) false) w').
  { rewrite (load_transforms_run _ _ _ _ Hflags).
    pose proof (all_false_replicate flags Hfalse) as Hrep.
    destruct (Nat.eqb (List.length flags) 1) eqn:Hone.
    - apply Nat.eqb_eq in Hone. rewrite Hone in Hrep. cbn in Hrep.
      subst flags. rewrite concat_replicate_singleton. eauto.
    - assert (Hsame : List.length flags = List.length xfm_paths).
      { destruct Hlen as [Hlen | Hlen]; [exact Hlen |].
        apply Nat.eqb_neq in Hone. contradiction. }
      rewrite Hsame, Nat.eqb_refl. cbn [negb].
      rewrite Hrep, Hsame. eauto. }
  destruct Hrun as [w' Hrun]. rewrite Hrun. clear Hrun.
  unfold load_chain. rewrite rev_replicate.
  rewrite <- length_rev, combine_replicate.
  unfold bind.
  rewrite (load_loop_affine (rev xfm_paths) (rev ms) None w'
             (Forall2_rev _ _ _ Hall)).
  assert (Hms : rev ms <> []).
  { intros Hnil. apply (f_equal (@rev Matrix)) in Hnil.
    rewrite rev_involutive in Hnil. subst ms.
    inversion Hall; subst. contradiction. }
  destruct (rev ms) as [| m rest] eqn:Hrev; [contradiction |].
  cbn [fold_left]. unfold push at 2.
  destruct (apply_pushed rest (nt.Affine m)) as (c' & Hc' & Happ).
  rewrite Hc'. exists c', w'. split; [reflexivity |].
  split; [exact Happ |].
  intros ->. rewrite Happ. simpl in Hrev. injection Hrev as <- <-.
  reflexivity.
Qed.

End Order.

(** ** Runs of [load_transforms] in the concrete environment *)

Lemma load_transforms_applies_in_reverse_order_witness :
  exists chain w',
    load_transforms (E := Demo.env) ["A.tfm"; "B.tfm"] 0%nat
      (with_list 0%nat [false; false] Demo.world0) = (Ok chain, w')
    /\ (forall p,
          nt.apply (E := Demo.env) chain p
          = fold_left (fun q m => nt.affine_map m q)
              (rev [translation 1 0 0; translation 0 1 0]) p)
    /\ ([translation 1 0 0; translation 0 1 0]
        = [translation 1 0 0; translation 0 1 0] ->
        nt.apply (E := Demo.env) chain (0, 0, 0)%float = (1, 1, 0)%float).
Proof.
  apply (load_transforms_applies_in_reverse_order (E := Demo.env)
           ["A.tfm"; "B.tfm"] [translation 1 0 0; translation 0 1 0]
           [false; false] 0%nat (with_list 0%nat [false; false] Demo.world0)).
  - discriminate.
  - repeat constructor; vm_compute; discriminate.
  - apply lookup_insert_eq.
  - repeat constructor.
  - left. reflexivity.
Defined.

(** C2, a counterexample to the claim as stated: [S.tfm] scales by 2 and
    [B.tfm] translates by (0,1,0). Applied in the order of the list (the
    scaling first), they send (0,0,0) to (0,1,0); the chain that
    [load_transforms] returns sends it to (0,2,0), which is the translation
    applied first. *)
Lemma load_transforms_not_in_forward_order :
  exists chain w',
    load_transforms (E := Demo.env) ["S.tfm"; "B.tfm"] 0%nat
      (with_list 0%nat [false; false] Demo.world0) = (Ok chain, w')
    /\ nt.affine_map (translation 0 1 0)
         (nt.affine_map (scaling 2) (0, 0, 0)%float) = (0, 1, 0)%float
    /\ nt.apply (E := Demo.env) chain (0, 0, 0)%float = (0, 2, 0)%float
    /\ nt.apply (E := Demo.env) chain (0, 0, 0)%float
       <> nt.affine_map (translation 0 1 0)
            (nt.affine_map (scaling 2) (0, 0, 0)%float).
Proof.
  exists (nt.TransformChain
            [nt.Affine (translation 0 1 0); nt.Affine (scaling 2)]),
         (with_list 0%nat [false; false] Demo.world0).
  split.
  - rewrite (load_transforms_run (E := Demo.env) _ 0%nat [false; false])
      by apply lookup_insert_eq.
    reflexivity.
  - split; [reflexivity |]. split; [reflexivity |].
    intros H.
    apply (f_equal (fun p : point => PrimFloat.eqb (snd (fst p)) 1)) in H.
    vm_compute in H. discriminate.
Qed.

Lemma load_transforms_empty_is_identity_witness :
  exists chain,
    load_transforms (E := Demo.env) [] 0%nat (with_list 0%nat [] Demo.world0)
    = (Ok chain, with_list 0%nat [] Demo.world0)
    /\ forall p, nt.apply (E := Demo.env) chain p = p.
Proof.
  apply (load_transforms_empty_is_identity (E := Demo.env) 0%nat
           (with_list 0%nat [] Demo.world0)).
  apply lookup_insert_eq.
Defined.

Lemma load_transforms_mutates_inverse_witness :
  exists v,
    lists (snd (load_transforms (E := Demo.env) ["A.tfm"; "B.tfm"] 0%nat
                  (with_list 0%nat [true] Demo.world0))) !! 0%nat = Some v
    /\ v = replicate 2 true
    /\ List.length v = 2%nat
    /\ v <> [true]
    /\ forall l, l <> 0%nat ->
         lists (snd (load_transforms (E := Demo.env) ["A.tfm"; "B.tfm"] 0%nat
                       (with_list 0%nat [true] Demo.world0))) !! l
         = lists (with_list 0%nat [true] Demo.world0) !! l.
Proof.
  apply (load_transforms_mutates_inverse (E := Demo.env)
           ["A.tfm"; "B.tfm"] 0%nat true
           (with_list 0%nat [true] Demo.world0)).
  - apply lookup_insert_eq.
  - simpl. lia.
Defined.

(** * Further properties of the module *)

(** ** The normalisation of [inverse] in [load_transforms] *)

Section Normalisation.
Context {E : Externals}.

(** X1: an [inverse] list whose length is neither one nor the number of
    paths is rejected with the mismatch ValueError before anything else
    happens: no file is read, no handle is opened, no list is changed. *)
Theorem load_transforms_mismatch xfm_paths inverse v w :
  lists w !! inverse = Some v ->
  List.length v <> 1%nat ->
  List.length v <> List.length xfm_paths ->
  load_transforms xfm_paths inverse w
  = (Raise (ValueError "Mismatched number of transforms and inverses"), w).
Proof.
  intros Hv H1 Hn. rewrite (load_transforms_run _ _ _ _ Hv).
  apply Nat.eqb_neq in H1, Hn. rewrite H1, Hn. reflexivity.
Qed.

(** X2: for any number of paths, the call made with the one-element list
    [[b]] has the same outcome (result and final state) as the call made
    with one copy of [b] per path. *)
Theorem load_transforms_broadcast xfm_paths b inverse w :
  load_transforms xfm_paths inverse (with_list inverse [b] w)
  = load_transforms xfm_paths inverse
      (with_list inverse (replicate (List.length xfm_paths) b) w).
Proof.
  rewrite (load_transforms_run _ inverse [b] (with_list inverse [b] w))
    by apply lookup_insert_eq.
  rewrite (load_transforms_run _ inverse
             (replicate (List.length xfm_paths) b)
             (with_list inverse (replicate (List.length xfm_paths) b) w))
    by apply lookup_insert_eq.
  cbn [List.length Nat.eqb].
  rewrite length_replicate, Nat.eqb_refl, concat_replicate_singleton.
  cbn [negb].
  assert (Hw : with_list inverse (replicate (List.length xfm_paths) b)
                 (with_list inverse [b] w)
               = with_list inverse (replicate (List.length xfm_paths) b) w).
  { unfold with_list. cbn [lists open_files next_fid].
    rewrite insert_insert_eq. reflexivity. }
  rewrite Hw.
  destruct (Nat.eqb (List.length xfm_paths) 1) eqn:Hone; [| reflexivity].
  apply Nat.eqb_eq in Hone. rewrite Hone. cbn [replicate concat app].
  assert (Hw' : with_list inverse [b] (with_list inverse [b] w)
                = with_list inverse [b] w).
  { unfold with_list. cbn [lists open_files next_fid].
    rewrite insert_insert_eq. reflexivity. }
  rewrite Hw'. reflexivity.
Qed.

(** X3: unless [inverse] has exactly one element while the number of paths
    is not one, the call leaves every Python list, the caller's included,
    holding what it held: whatever it returns or raises. *)
Theorem load_transforms_keeps_lists xfm_paths inverse v w :
  lists w !! inverse = Some v ->
  List.length v <> 1%nat \/ List.length xfm_paths = 1%nat ->
  lists (snd (load_transforms xfm_paths inverse w)) = lists w.
Proof.
  intros Hv Hcase. rewrite (load_transforms_lists _ _ _ _ Hv).
  destruct (Nat.eqb (List.length v) 1) eqn:Hone; [| reflexivity].
  apply Nat.eqb_eq in Hone.
  destruct Hcase as [Hne | Hpaths]; [contradiction |].
  rewrite Hpaths. cbn [replicate concat]. rewrite app_nil_r.
  now apply insert_id.
Qed.

(** X4: with no path and a one-element [inverse] list, the call returns
    the identity transform, and the caller's list is left empty
    ([inverse *= 0]). *)
Theorem load_transforms_no_path_single_flag inverse b w :
  lists w !! inverse = Some [b] ->
  exists chain,
    load_transforms [] inverse w = (Ok chain, with_list inverse [] w)
    /\ (forall p, nt.apply chain p = p)
    /\ lists (with_list inverse [] w) !! inverse = Some [].
Proof.
  intros Hv. exists nt.TransformBase.
  rewrite (load_transforms_run _ _ _ _ Hv).
  split; [reflexivity |]. split; [reflexivity |]. apply lookup_insert_eq.
Qed.

End Normalisation.

Lemma load_transforms_mismatch_witness :
  load_transforms (E := Demo.env) ["A.tfm"; "B.tfm"] 0%nat
    (with_list 0%nat [true; false; true] Demo.world0)
  = (Raise (ValueError "Mismatched number of transforms and inverses"),
     with_list 0%nat [true; false; true] Demo.world0).
Proof.
  apply (load_transforms_mismatch (E := Demo.env) ["A.tfm"; "B.tfm"] 0%nat
           [true; false; true]).
  - apply lookup_insert_eq.
  - simpl. lia.
  - simpl. lia.
Defined.

Lemma load_transforms_keeps_lists_witness :
  lists (snd (load_transforms (E := Demo.env) ["A.tfm"; "B.tfm"] 0%nat
                (with_list 0%nat [false; true] Demo.world0)))
  = lists (with_list 0%nat [false; true] Demo.world0).
Proof.
  apply (load_transforms_keeps_lists (E := Demo.env) ["A.tfm"; "B.tfm"] 0%nat
           [false; true]).
  - apply lookup_insert_eq.
  - left. simpl. lia.
Defined.

Lemma load_transforms_no_path_single_flag_witness :
  exists chain,
    load_transforms (E := Demo.env) [] 0%nat
      (with_list 0%nat [true] Demo.world0)
    = (Ok chain, with_list 0%nat [] (with_list 0%nat [true] Demo.world0))
    /\ (forall p, nt.apply (E := Demo.env) chain p = p)
    /\ lists (with_list 0%nat [] (with_list 0%nat [true] Demo.world0))
         !! 0%nat = Some [].
Proof.
  apply (load_transforms_no_path_single_flag (E := Demo.env) 0%nat true).
  apply lookup_insert_eq.
Defined.

(** ** What [parse_combined_hdf5] accepts and refuses *)

Section Acceptance.
Context {E : Externals}.

Lemma reshape_of_size (a : np.ndarray) :
  np.size a = 193 * 229 * 193 * 3 ->
  np.reshape a [193; 229; 193; 3]
  = Ok {| np.shape := [193; 229; 193; 3];
          np.item := fun idx =>
            np.item a (np.unravel (np.shape a)
                                  (np.ravel [193; 229; 193; 3] idx)) |}.
Proof. intros Hs. unfold np.reshape. rewrite Hs. reflexivity. Qed.

Lemma reshape_of_other_size (a : np.ndarray) :
  np.size a <> 193 * 229 * 193 * 3 ->
  np.reshape a [193; 229; 193; 3]
  = Raise (ValueError "cannot reshape array").
Proof.
  intros Hs. unfold np.reshape.
  destruct (_ =? _) eqn:Heq; [| reflexivity].
  apply Z.eqb_eq in Heq. exfalso. apply Hs. rewrite <- Heq. reflexivity.
Qed.

(** X5: the containers [parse_combined_hdf5] accepts are exactly those
    that open, whose header decodes, and whose member ["2"] has the
    expected type string, fixed parameters equal to the reference vector
    and a parameters record of [193*229*193*3] elements. *)
Theorem parse_combined_hdf5_accepts_exactly h5_fn to_ras w :
  (exists affine warp warp_affine w',
      parse_combined_hdf5 h5_fn to_ras w
      = (Ok (affine, warp, warp_affine), w'))
  <-> (exists g affine e2,
         reaches_validation h5_fn w g affine e2
         /\ h5py.TransformType e2 = "DisplacementFieldTransform_float_3_3"
         /\ np.array_equal (h5py.TransformFixedParameters e2) FIXED_PARAMS
            = true
         /\ np.size (h5py.TransformParameters e2) = 193 * 229 * 193 * 3).
Proof.
  split.
  - intros (affine & warp & warp_affine & w' & Hok).
    apply parse_ok_inv in Hok
      as (g & e2 & stored & moved & Hreach & Hty & Hfix & Hs & _).
    exists g, affine, e2. repeat split; try assumption.
    + destruct Hreach as (Hg & _). exact Hg.
    + destruct Hreach as (_ & Hd & _). exact Hd.
    + destruct Hreach as (_ & _ & H2). exact H2.
    + unfold np.reshape in Hs.
      destruct (_ =? _) eqn:Hsize in Hs; [| discriminate].
      apply Z.eqb_eq in Hsize. rewrite <- Hsize. reflexivity.
  - intros (g & affine & e2 & Hreach & Hty & Hfix & Hsize).
    rewrite (parse_valid _ _ _ _ _ _ Hreach Hty Hfix).
    rewrite (reshape_of_size _ Hsize).
    eexists _, _, _, _. reflexivity.
Qed.

(** X6: a container that parses has a fixed-parameters vector of exactly
    18 elements, each equal (as floats compare) to the element of the
    reference vector at its position. *)
Theorem parse_combined_hdf5_fixed_parameters_exact
    h5_fn to_ras w affine warp warp_affine w' :
  parse_combined_hdf5 h5_fn to_ras w = (Ok (affine, warp, warp_affine), w') ->
  exists g e2,
    h5_read h5_fn = Some g
    /\ h5py.lookup g "2" = Some e2
    /\ np.shape (h5py.TransformFixedParameters e2) = [18]
    /\ forall i, 0 <= i < 18 ->
         PrimFloat.eqb (np.item (h5py.TransformFixedParameters e2) [i])
                       (np.item FIXED_PARAMS [i]) = true.
Proof.
  intros Hok.
  apply parse_ok_inv in Hok
    as (g & e2 & stored & moved & Hreach & _ & Hfix & _).
  destruct Hreach as (Hg & _ & H2).
  exists g, e2. split; [exact Hg | split; [exact H2 |]].
  unfold np.array_equal in Hfix. apply andb_prop in Hfix as [Hshape Hall].
  apply list_eqb_eq in Hshape. split; [exact Hshape |].
  intros i Hi. rewrite Hshape in Hall. rewrite forallb_forall in Hall.
  apply (Hall [i]).
  change (np.ndindex (np.shape FIXED_PARAMS))
    with (flat_map (fun i => map (cons i) [[]]) (np.range 18)).
  apply in_flat_map. exists i. split; [now apply In_range | now left].
Qed.

(** X7: when the group has no member ["2"], the call raises KeyError for
    that key, after the container was opened and its header decoded. *)
Theorem parse_combined_hdf5_missing_member
    h5_fn to_ras w g xf xs affine :
  h5_read h5_fn = Some g ->
  ITKCompositeH5_from_h5obj
    {| h5py.fid := next_fid w; h5py.TransformGroup := g |} = Ok (xf :: xs) ->
  ITK_to_ras xf = Ok affine ->
  h5py.lookup g "2" = None ->
  parse_combined_hdf5 h5_fn to_ras w = (Raise (KeyError "2"), opened w).
Proof.
  intros Hg Hx Hr H2.
  unfold parse_combined_hdf5, h5py_File.
  unfold bind at 1. rewrite Hg. cbv beta iota.
  unfold bind at 1, lift at 1. cbn [h5py.TransformGroup]. rewrite Hx.
  cbv beta iota.
  unfold bind at 1, list_getitem0, ret at 1. cbv beta iota.
  unfold bind at 1, lift at 1. rewrite Hr. cbv beta iota.
  unfold bind at 1, group_getitem at 1. rewrite H2. reflexivity.
Qed.

(** X8: a container that passes both validations and whose parameters
    record does not have [193*229*193*3] elements is refused: the reshape
    raises ValueError, and no warp is returned. *)
Theorem parse_combined_hdf5_wrong_size h5_fn to_ras w g affine e2 :
  reaches_validation h5_fn w g affine e2 ->
  h5py.TransformType e2 = "DisplacementFieldTransform_float_3_3" ->
  np.array_equal (h5py.TransformFixedParameters e2) FIXED_PARAMS = true ->
  np.size (h5py.TransformParameters e2) <> 193 * 229 * 193 * 3 ->
  exists msg,
    parse_combined_hdf5 h5_fn to_ras w = (Raise (ValueError msg), opened w).
Proof.
  intros Hreach Hty Hfix Hsize.
  rewrite (parse_valid _ _ _ _ _ _ Hreach Hty Hfix).
  rewrite (reshape_of_other_size _ Hsize). eexists. reflexivity.
Qed.

(** X9: [load_ants_h5] raises whatever [parse_combined_hdf5] raises; when
    the parse returns [(affine, warp, warp_affine)] it returns a chain that
    maps a point through the displacement field first and through the
    affine second. In both cases the world is the one the parse left. *)
Theorem load_ants_h5_of_parse filename w :
  (forall affine warp warp_affine w',
     parse_combined_hdf5 filename true w
     = (Ok (affine, warp, warp_affine), w') ->
     exists chain,
       load_ants_h5 filename w = (Ok chain, w')
       /\ forall p,
            nt.apply chain p
            = nt.affine_map affine (dense_field_map warp warp_affine p))
  /\ (forall e w',
        parse_combined_hdf5 filename true w = (Raise e, w') ->
        load_ants_h5 filename w = (Raise e, w')).
Proof.
  unfold load_ants_h5, bind. split.
  - intros affine warp warp_affine w' ->.
    eexists. split; reflexivity.
  - intros e w' ->. reflexivity.
Qed.

End Acceptance.

(** ** The HDF5 handle at the end of a call *)

Section Handle.
Context {E : Externals}.


End Handle.



(** ** Files and handles in [load_transforms] *)

Lemma combine_app_eq {A B} (l1 l2 : list A) (l1' l2' : list B) :
  List.length l1 = List.length l1' ->
  combine (l1 ++ l2) (l1' ++ l2') = (combine l1 l1' ++ combine l2 l2')%list.
Proof.
  revert l1'. induction l1 as [| x l1 IH]; intros [| y l1'] Hlen;
    simpl in *; try discriminate; [reflexivity |].
  f_equal. apply IH. lia.
Qed.

Lemma combine_rev_eq {A B} (l : list A) (l' : list B) :
  List.length l = List.length l' ->
  combine (rev l) (rev l') = rev (combine l l').
Proof.
  revert l'. induction l as [| x l IH]; intros [| y l'] Hlen;
    simpl in *; try discriminate; [reflexivity |].
  rewrite combine_app_eq by (rewrite !length_rev; lia).
  rewrite IH by lia. reflexivity.
Qed.

Lemma map_fst_combine_eq {A B} (l : list A) (l' : list B) :
  List.length l = List.length l' -> map fst (combine l l') = l.
Proof.
  revert l'. induction l as [| x l IH]; intros [| y l'] Hlen;
    simpl in *; try discriminate; [reflexivity |].
  f_equal. apply IH. lia.
Qed.

Lemma length_filter_map {A B} (f : B -> bool) (g : A -> B) (l : list A) :
  List.length (List.filter (fun x => f (g x)) l)
  = List.length (List.filter f (map g l)).
Proof.
  induction l as [| x l IH]; simpl; [reflexivity |].
  destruct (f (g x)); simpl; now rewrite IH.
Qed.

Section Files.
Context {E : Externals}.

Lemma stateless_list_read l : stateless (list_read l).
Proof. intros w. unfold list_read. destruct (lists w !! l); reflexivity. Qed.

Lemma stateless_keeps_files {A} (c : M A) : stateless c -> keeps_files c.
Proof. intros H w. rewrite H. split; reflexivity. Qed.

Lemma keeps_files_bind {A B} (c : M A) (k : A -> M B) :
  keeps_files c -> (forall a, keeps_files (k a)) -> keeps_files (bind c k).
Proof.
  intros Hc Hk w. unfold bind.
  specialize (Hc w). destruct (c w) as [[a | e] w1]; simpl in *.
  - destruct (Hk a w1) as [Ho Hn]. destruct Hc as [Ho' Hn'].
    split; congruence.
  - exact Hc.
Qed.

Lemma keeps_files_load_loop items :
  Forall (fun it : string * bool => is_h5 (fst it) = false) items ->
  forall chain, keeps_files (load_loop items chain).
Proof.
  induction 1 as [| [path inv] items Hpath _ IH]; intros chain;
    cbn [load_loop].
  - apply stateless_keeps_files, stateless_ret.
  - unfold is_h5 in Hpath. cbn [fst] in Hpath. rewrite Hpath.
    apply keeps_files_bind.
    + apply stateless_keeps_files, stateless_bind; auto with frame.
    + intros xfm. apply keeps_files_bind.
      * destruct inv; apply stateless_keeps_files; auto with frame.
      * intros xfm'. apply IH.
Qed.

Lemma Forall_combine_fst {A B} (P : A -> Prop) (l : list A) (l' : list B) :
  Forall P l -> Forall (fun it => P (fst it)) (combine l l').
Proof.
  intros H. revert l'. induction H as [| x l Hx _ IH]; intros [| y l'];
    simpl; constructor; [exact Hx | apply IH].
Qed.

(** X11: when no path has the suffix [.h5], [load_transforms] opens no
    HDF5 handle: the table of open handles is after the call what it was
    before, whether the call returns or raises. *)
Theorem load_transforms_linear_only_opens_nothing xfm_paths inverse w :
  Forall (fun path => is_h5 path = false) xfm_paths ->
  open_files (snd (load_transforms xfm_paths inverse w)) = open_files w
  /\ next_fid (snd (load_transforms xfm_paths inverse w)) = next_fid w.
Proof.
  intros Hall. revert w.
  change (keeps_files (load_transforms xfm_paths inverse)).
  unfold load_transforms.
  apply keeps_files_bind;
    [apply stateless_keeps_files, stateless_list_read |].
  intros inv. apply keeps_files_bind.
  - destruct (Nat.eqb _ _).
    + intros w. unfold list_imul. destruct (lists w !! inverse);
        split; reflexivity.
    + destruct (negb _); apply stateless_keeps_files; auto with frame.
  - intros _. apply keeps_files_bind;
      [apply stateless_keeps_files, stateless_list_read |].
    intros inv'. apply keeps_files_bind.
    + apply keeps_files_load_loop.
      apply (Forall_combine_fst (fun path => is_h5 path = false)).
      now apply Forall_rev.
    + intros [c |]; apply stateless_keeps_files, stateless_ret.
Qed.

End Files.

Lemma load_transforms_linear_only_opens_nothing_witness :
  open_files (snd (load_transforms (E := Demo.env) ["A.tfm"; "S.tfm"] 0%nat
                     (with_list 0%nat [true] Demo.world0)))
    = open_files (with_list 0%nat [true] Demo.world0)
  /\ next_fid (snd (load_transforms (E := Demo.env) ["A.tfm"; "S.tfm"] 0%nat
                     (with_list 0%nat [true] Demo.world0)))
     = next_fid (with_list 0%nat [true] Demo.world0).
Proof.
  apply (load_transforms_linear_only_opens_nothing (E := Demo.env)
           ["A.tfm"; "S.tfm"] 0%nat (with_list 0%nat [true] Demo.world0)).
  repeat constructor.
Defined.

(** ** What a successful [load_transforms] has done *)

Section Success.
Context {E : Externals}.

Lemma load_ants_h5_ok filename w xfm w1 :
  load_ants_h5 filename w = (Ok xfm, w1) ->
  (exists g, h5_read filename = Some g) /\ w1 = opened w.
Proof.
  unfold load_ants_h5, bind. intros H.
  destruct (parse_combined_hdf5 filename true w)
    as [[[[affine warp] warp_affine] | e] w'] eqn:Hparse; [| discriminate].
  injection H as _ <-.
  apply parse_ok_inv in Hparse
    as (g & e2 & stored & moved & Hreach & _ & _ & _ & _ & _ & _ & ->).
  destruct Hreach as (Hg & _). split; [eauto | reflexivity].
Qed.

Lemma load_loop_ok items :
  forall chain w r w',
    load_loop items chain w = (Ok r, w') ->
    Forall (fun it : string * bool => loadable (fst it)) items
    /\ next_fid w'
       = (next_fid w
          + List.length (List.filter (fun it => is_h5 (fst it)) items))%nat.
Proof.
  induction items as [| [path inv] items IH]; intros chain w r w' H.
  - inversion H; subst. split; [constructor | simpl; lia].
  - cbn [load_loop] in H. unfold bind at 1 in H.
    assert (Hdef : is_h5 path = String.eqb (pathlib.suffix path) ".h5")
      by reflexivity.
    cbn [List.filter fst]. rewrite Hdef.
    destruct (String.eqb (pathlib.suffix path) ".h5") eqn:Hsuf.
    + destruct (load_ants_h5 path w) as [[xfm | e] w1] eqn:Hload;
        [| discriminate].
      apply load_ants_h5_ok in Hload as [Hg ->].
      unfold bind at 1 in H.
      assert (Hinv : stateless
                       (if inv then lift (nt.invert xfm) else ret xfm))
        by (destruct inv; auto with frame).
      specialize (Hinv (opened w)).
      destruct ((if inv then lift (nt.invert xfm) else ret xfm) (opened w))
        as [[xfm' | e] w2]; [| discriminate].
      simpl in Hinv. subst w2.
      apply IH in H as (Hall & Hn).
      split.
      { constructor; [| exact Hall]. cbn [fst]. unfold loadable.
        rewrite Hdef. exact Hg. }
      cbn [List.length]. unfold opened in Hn.
      cbn [next_fid] in Hn. lia.
    + unfold bind at 1, lift at 1 in H.
      destruct (nt_linear_load path) as [m | e] eqn:Hm; [| discriminate].
      unfold ret at 1 in H. cbv beta iota in H.
      unfold bind at 1 in H.
      assert (Hinv : stateless
                       (if inv then lift (nt.invert (nt.Affine m))
                        else ret (nt.Affine m)))
        by (destruct inv; auto with frame).
      specialize (Hinv w).
      destruct ((if inv then lift (nt.invert (nt.Affine m))
                 else ret (nt.Affine m)) w)
        as [[xfm' | e] w2]; [| discriminate].
      simpl in Hinv. subst w2.
      apply IH in H as (Hall & Hn).
      split.
      { constructor; [| exact Hall]. cbn [fst]. unfold loadable.
        rewrite Hdef. eauto. }
      exact Hn.
Qed.

(** X12: there is no partial result. When [load_transforms] returns a
    transform, every path of the list was loaded (each composite container
    opened, each linear file read), and one HDF5 handle was handed out per
    [.h5] path: each container was opened once. *)
Theorem load_transforms_ok_loaded_all xfm_paths inverse w chain w' :
  load_transforms xfm_paths inverse w = (Ok chain, w') ->
  Forall loadable xfm_paths
  /\ next_fid w'
     = (next_fid w + List.length (List.filter is_h5 xfm_paths))%nat.
Proof.
  intros H.
  destruct (lists w !! inverse) as [v |] eqn:Hv.
  2:{ unfold load_transforms in H. unfold bind at 1, list_read at 1 in H.
      rewrite Hv in H. discriminate. }
  rewrite (load_transforms_run _ _ _ _ Hv) in H.
  assert (Hchain : exists flags w1,
             load_chain xfm_paths flags w1 = (Ok chain, w')
             /\ List.length flags = List.length xfm_paths
             /\ next_fid w1 = next_fid w).
  { destruct (Nat.eqb (List.length v) 1) eqn:Hone.
    - apply Nat.eqb_eq in Hone.
      destruct v as [| b [| ? ?]]; try discriminate.
      rewrite concat_replicate_singleton in H.
      eexists _, _. split; [exact H |].
      split; [apply length_replicate | reflexivity].
    - destruct (Nat.eqb (List.length v) (List.length xfm_paths)) eqn:Hlen;
        [| discriminate].
      apply Nat.eqb_eq in Hlen. cbn [negb] in H.
      exists v, w. repeat split; assumption. }
  destruct Hchain as (flags & w1 & Hrun & Hlen & Hn1).
  unfold load_chain in Hrun. unfold bind at 1 in Hrun.
  destruct (load_loop _ _ w1) as [[r | e] w2] eqn:Hloop; [| discriminate].
  assert (w2 = w') by (destruct r; injection Hrun as _ <-; reflexivity).
  subst w2.
  apply load_loop_ok in Hloop as (Hall & Hn).
  rewrite (length_filter_map is_h5 fst) in Hn.
  rewrite map_fst_combine_eq in Hn by (rewrite !length_rev; lia).
  rewrite filter_rev, length_rev in Hn.
  rewrite Hn1 in Hn.
  split; [| exact Hn].
  apply Forall_rev in Hall.
  rewrite <- (rev_involutive xfm_paths).
  apply Forall_rev.
  rewrite <- (map_fst_combine_eq (rev xfm_paths) (rev flags))
    by (rewrite !length_rev; lia).
  apply Forall_map. apply Forall_rev in Hall.
  rewrite rev_involutive in Hall. exact Hall.
Qed.

End Success.

(** ** Inversion flags and failures *)

Section Flags.
Context {E : Externals}.

Lemma load_loop_linear items :
  forall effs chain w,
    Forall2 (fun it eff => contributes (fst it) (snd it) eff) items effs ->
    load_loop items chain w = (Ok (fold_left push effs chain), w).
Proof.
  induction items as [| [path inv] items IH]; intros effs chain w Hall;
    inversion Hall as [| ? eff ? effs' [Hsuf (m & Hload & Heff)] Hrest];
    subst; [reflexivity |].
  cbn [fst snd] in *. cbn [load_loop fold_left].
  unfold is_h5 in Hsuf. rewrite Hsuf.
  unfold bind at 1. unfold bind at 1, lift at 1. rewrite Hload.
  unfold ret at 1. cbv beta iota. unfold bind at 1.
  destruct inv.
  - unfold lift at 1. cbn [nt.invert]. rewrite Heff. cbv beta iota.
    apply (IH effs' (push chain eff) w Hrest).
  - unfold ret at 1. cbv beta iota. subst eff.
    apply (IH effs' (push chain m) w Hrest).
Qed.

(** X13: for linear files with one flag per file, the flag at position
    [i] decides for the path at position [i]: the chain returned applies,
    last-listed file first, the matrix of each file whose flag is false and
    the inverse of the matrix of each file whose flag is true. *)
Theorem load_transforms_flags_follow_paths
    xfm_paths flags effs inverse w :
  xfm_paths <> [] ->
  lists w !! inverse = Some flags ->
  List.length flags = List.length xfm_paths ->
  Forall2 (fun it eff => contributes (fst it) (snd it) eff)
          (combine xfm_paths flags) effs ->
  exists chain w',
    load_transforms xfm_paths inverse w = (Ok chain, w')
    /\ forall p,
         nt.apply chain p
         = fold_left (fun q m => nt.affine_map m q) (rev effs) p.
Proof.
  intros Hne Hflags Hlen Hall.
  assert (Hrun : exists w',
             load_transforms xfm_paths inverse w
             = load_chain xfm_paths flags w').
  { rewrite (load_transforms_run _ _ _ _ Hflags).
    destruct (Nat.eqb (List.length flags) 1) eqn:Hone.
    - apply Nat.eqb_eq in Hone. rewrite <- Hlen, Hone.
      cbn [replicate concat]. rewrite app_nil_r. eauto.
    - rewrite Hlen, Nat.eqb_refl. eauto. }
  destruct Hrun as [w' Hrun]. rewrite Hrun. clear Hrun.
  unfold load_chain. rewrite combine_rev_eq by lia.
  unfold bind.
  rewrite (load_loop_linear _ (rev effs) None w' (Forall2_rev _ _ _ Hall)).
  assert (Heffs : rev effs <> []).
  { intros Hnil. apply (f_equal (@rev Matrix)) in Hnil.
    rewrite rev_involutive in Hnil. subst effs.
    destruct xfm_paths as [| p ps]; [contradiction |].
    destruct flags as [| f fs]; [discriminate |].
    inversion Hall. }
  destruct (rev effs) as [| m rest]; [contradiction |].
  cbn [fold_left]. unfold push at 2.
  destruct (apply_pushed rest (nt.Affine m)) as (c' & Hc' & Happ).
  rewrite Hc'. exists c', w'. split; [reflexivity | exact Happ].
Qed.

(** X14: files are loaded from the last path to the first. When the last
    path is a linear file that fails to load, the call raises that
    failure, and no HDF5 handle has been opened for any earlier path. *)
Theorem load_transforms_last_path_fails
    earlier last flags inverse e w :
  lists w !! inverse = Some flags ->
  List.length flags = List.length (earlier ++ [last])%list
  \/ List.length flags = 1%nat ->
  is_h5 last = false ->
  nt_linear_load last = Raise e ->
  fst (load_transforms (earlier ++ [last])%list inverse w) = Raise e
  /\ open_files (snd (load_transforms (earlier ++ [last])%list inverse w))
     = open_files w
  /\ next_fid (snd (load_transforms (earlier ++ [last])%list inverse w))
     = next_fid w.
Proof.
  intros Hflags Hlen Hsuf Hload.
  assert (Hrun : exists flags' w',
             load_transforms (earlier ++ [last])%list inverse w
             = load_chain (earlier ++ [last])%list flags' w'
             /\ List.length flags' = S (List.length earlier)
             /\ open_files w' = open_files w
             /\ next_fid w' = next_fid w).
  { rewrite (load_transforms_run _ _ _ _ Hflags).
    rewrite length_app in *. cbn [List.length] in *.
    destruct (Nat.eqb (List.length flags) 1) eqn:Hone.
    - apply Nat.eqb_eq in Hone.
      destruct flags as [| b [| ? ?]]; try discriminate.
      rewrite concat_replicate_singleton.
      eexists _, _. split; [reflexivity |].
      split; [rewrite length_replicate; lia | split; reflexivity].
    - destruct Hlen as [Hlen | Hlen];
        [| apply Nat.eqb_neq in Hone; contradiction].
      rewrite Hlen, Nat.eqb_refl. cbn [negb].
      exists flags, w. split; [reflexivity |].
      split; [lia | split; reflexivity]. }
  destruct Hrun as (flags' & w' & Hrun & Hlen' & Ho & Hn).
  rewrite Hrun. unfold load_chain. rewrite rev_unit.
  destruct (rev flags') as [| f rest] eqn:Hrev.
  { apply (f_equal (@List.length bool)) in Hrev.
    rewrite length_rev in Hrev. simpl in Hrev. lia. }
  cbn [combine load_loop]. unfold is_h5 in Hsuf. rewrite Hsuf.
  unfold bind at 1. unfold bind at 1. unfold bind at 1, lift at 1.
  rewrite Hload. cbv beta iota. cbn [fst snd].
  split; [reflexivity | split; assumption].
Qed.

End Flags.

Lemma load_transforms_flags_follow_paths_witness :
  exists chain w',
    load_transforms (E := Demo.env) ["A.tfm"; "S.tfm"] 0%nat
      (with_list 0%nat [true; false] Demo.world0) = (Ok chain, w')
    /\ forall p,
         nt.apply (E := Demo.env) chain p
         = fold_left (fun q m => nt.affine_map m q)
             (rev [translation (-1) (-0) (-0); scaling 2]) p.
Proof.
  apply (load_transforms_flags_follow_paths (E := Demo.env)
           ["A.tfm"; "S.tfm"] [true; false]
           [translation (-1) (-0) (-0); scaling 2] 0%nat
           (with_list 0%nat [true; false] Demo.world0)).
  - discriminate.
  - apply lookup_insert_eq.
  - reflexivity.
  - repeat constructor; cbn [fst snd]; eexists; split; reflexivity.
Defined.

Lemma load_transforms_last_path_fails_witness :
  fst (load_transforms (E := Demo.env) (["warp.h5"] ++ ["missing.tfm"])%list
         0%nat (with_list 0%nat [false] Demo.world0))
    = Raise (OSError "missing.tfm")
  /\ open_files
       (snd (load_transforms (E := Demo.env)
               (["warp.h5"] ++ ["missing.tfm"])%list
               0%nat (with_list 0%nat [false] Demo.world0)))
     = open_files (with_list 0%nat [false] Demo.world0)
  /\ next_fid
       (snd (load_transforms (E := Demo.env)
               (["warp.h5"] ++ ["missing.tfm"])%list
               0%nat (with_list 0%nat [false] Demo.world0)))
     = next_fid (with_list 0%nat [false] Demo.world0).
Proof.
  apply (load_transforms_last_path_fails (E := Demo.env)
           ["warp.h5"] "missing.tfm" [false] 0%nat (OSError "missing.tfm")
           (with_list 0%nat [false] Demo.world0)).
  - apply lookup_insert_eq.
  - right. reflexivity.
  - reflexivity.
  - reflexivity.
Defined.

(** ** More runs in the concrete environments *)

Lemma demo_parse_warp_any (w : World) :
  parse_combined_hdf5 (E := Demo.env) "warp.h5" true w
  = (Ok (translation 0 0 0, Demo.warp, warp_affine_literal), opened w).
Proof.
  assert (Hreach : reaches_validation (E := Demo.env) "warp.h5" w
            (Demo.container "DisplacementFieldTransform_float_3_3"
                            FIXED_PARAMS)
            (translation 0 0 0)
            (Demo.displacement "DisplacementFieldTransform_float_3_3"
                               FIXED_PARAMS)).
  { split; [reflexivity |]. split; [| reflexivity].
    exists (translation 0 0 0), []. split; reflexivity. }
  rewrite (parse_valid (E := Demo.env) "warp.h5" true w _ _ _ Hreach
             eq_refl eq_refl).
  reflexivity.
Qed.

Lemma demo_load_mixed :
  load_transforms (E := Demo.env) ["warp.h5"; "A.tfm"] 0%nat
    (with_list 0%nat [false; false] Demo.world0)
  = (Ok (nt.TransformChain
           [nt.Affine (translation 1 0 0);
            nt.TransformChain
              [nt.DenseFieldTransform Demo.warp warp_affine_literal;
               nt.Affine (translation 0 0 0)]]),
     opened (with_list 0%nat [false; false] Demo.world0)).
Proof.
  rewrite (load_transforms_run (E := Demo.env) _ 0%nat [false; false])
    by apply lookup_insert_eq.
  cbn [List.length Nat.eqb negb].
  unfold load_chain. cbn [rev app combine load_loop].
  change (String.eqb (pathlib.suffix "A.tfm") ".h5") with false.
  change (String.eqb (pathlib.suffix "warp.h5") ".h5") with true.
  cbv beta iota.
  unfold bind at 1. unfold bind at 1. unfold bind at 1.
  unfold lift at 1. cbn [nt_linear_load Demo.env].
  change (Demo.files_linear "A.tfm") with (Ok (translation 1 0 0)).
  cbv beta iota. unfold ret at 1. cbv beta iota.
  unfold bind at 1, ret at 1. cbv beta iota.
  unfold bind at 1. unfold bind at 1. unfold load_ants_h5, bind at 1.
  rewrite demo_parse_warp_any. reflexivity.
Qed.

Lemma parse_combined_hdf5_fixed_parameters_exact_witness :
  exists g e2,
    Demo.files_h5 "warp.h5" = Some g
    /\ h5py.lookup g "2" = Some e2
    /\ np.shape (h5py.TransformFixedParameters e2) = [18]
    /\ forall i, 0 <= i < 18 ->
         PrimFloat.eqb (np.item (h5py.TransformFixedParameters e2) [i])
                       (np.item FIXED_PARAMS [i]) = true.
Proof.
  apply (parse_combined_hdf5_fixed_parameters_exact (E := Demo.env)
           "warp.h5" true Demo.world0 (translation 0 0 0) Demo.warp
           warp_affine_literal (opened Demo.world0)).
  exact demo_parse_warp.
Defined.

Lemma parse_combined_hdf5_missing_member_witness :
  parse_combined_hdf5 (E := Demo2.env) "headeronly.h5" true Demo.world0
  = (Raise (KeyError "2"), opened Demo.world0).
Proof.
  apply (parse_combined_hdf5_missing_member (E := Demo2.env)
           "headeronly.h5" true Demo.world0
           [ ("0", Demo.header); ("1", Demo.linear) ]
           (translation 0 0 0) [] (translation 0 0 0));
    reflexivity.
Defined.

Lemma parse_combined_hdf5_wrong_size_witness :
  exists msg,
    parse_combined_hdf5 (E := Demo2.env) "short.h5" true Demo.world0
    = (Raise (ValueError msg), opened Demo.world0).
Proof.
  apply (parse_combined_hdf5_wrong_size (E := Demo2.env)
           "short.h5" true Demo.world0
           [ ("0", Demo.header); ("1", Demo.linear);
             ("2", Demo2.short_displacement) ]
           (translation 0 0 0) Demo2.short_displacement).
  - split; [reflexivity |]. split; [| reflexivity].
    exists (translation 0 0 0), []. split; reflexivity.
  - reflexivity.
  - reflexivity.
  - vm_compute. discriminate.
Defined.

Lemma load_transforms_ok_loaded_all_witness :
  Forall (loadable (E := Demo.env)) ["warp.h5"; "A.tfm"]
  /\ next_fid (opened (with_list 0%nat [false; false] Demo.world0))
     = (next_fid (with_list 0%nat [false; false] Demo.world0)
        + List.length (List.filter is_h5 ["warp.h5"; "A.tfm"]))%nat.
Proof.
  apply (load_transforms_ok_loaded_all (E := Demo.env)
           ["warp.h5"; "A.tfm"] 0%nat
           (with_list 0%nat [false; false] Demo.world0)
           (nt.TransformChain
              [nt.Affine (translation 1 0 0);
               nt.TransformChain
                 [nt.DenseFieldTransform Demo.warp warp_affine_literal;
                  nt.Affine (translation 0 0 0)]])
           (opened (with_list 0%nat [false; false] Demo.world0))).
  exact demo_load_mixed.
Defined.
